(** * mcp_client: the tool-calling orchestration loop of [src/mcp_client.py]

    A shallow embedding of the methods of [MCPClient] ([connect_to_server],
    [process_query], [chat_loop], [cleanup]) and of [main].  The collaborators
    the client talks to (the MCP session and its stdio transport, the model
    API, [json.loads], the console) are an interface, [Collaborators]; every
    call the client makes to one of them is recorded as an [event], so that a
    statement such as "without invoking the model" is a statement about the
    recorded events.

    The two [while True] loops take a number of rounds after which they are
    cut, with the result [OutOfFuel].

    Strings are Python [str] values held as their UTF-8 bytes. *)

From Stdlib Require Import List String Ascii Bool Arith Lia.
Import ListNotations.
Local Open Scope string_scope.
Local Open Scope list_scope.

Set Implicit Arguments.

(** ** Python string operations used by the client *)

Module PyStr.

Definition nl : string := String "010"%char EmptyString.
Definition dquote : string := String "034"%char EmptyString.

Definition bytes (s : string) : list ascii := list_ascii_of_string s.
Definition of_bytes (l : list ascii) : string := string_of_list_ascii l.

Fixpoint starts_with (p l : list ascii) : bool :=
  match p, l with
  | [], _ => true
  | _ :: _, [] => false
  | a :: p', b :: l' => Ascii.eqb a b && starts_with p' l'
  end.

(** [s.endswith(suffix)] *)
Definition endswith (s suffix : string) : bool :=
  starts_with (rev (bytes suffix)) (rev (bytes s)).

(** [sep.join(l)] *)
Definition join (sep : string) (l : list string) : string := String.concat sep l.

(** [c.lower()] on one byte: only [A]..[Z] change.  No character outside
    ASCII lowers to one of [q], [u], [i], [t], which is all the client
    compares a lowered string with. *)
Definition lower_byte (c : ascii) : ascii :=
  let n := nat_of_ascii c in
  if (Nat.leb 65 n && Nat.leb n 90)%bool then ascii_of_nat (n + 32) else c.

Definition lower (s : string) : string := of_bytes (map lower_byte (bytes s)).

(** The characters [str.isspace] accepts, as UTF-8 byte sequences:
    U+0009..U+000D, U+001C..U+0020, U+0085, U+00A0, U+1680, U+2000..U+200A,
    U+2028, U+2029, U+202F, U+205F, U+3000. *)
Definition whitespace : list (list nat) :=
  map (fun n => [n]) [9; 10; 11; 12; 13; 28; 29; 30; 31; 32]
  ++ [[194; 133]; [194; 160]; [225; 154; 128]]
  ++ map (fun n => [226; 128; n]) [128; 129; 130; 131; 132; 133; 134; 135; 136; 137; 138]
  ++ [[226; 128; 168]; [226; 128; 169]; [226; 128; 175]; [226; 129; 159]; [227; 128; 128]].

Definition whitespace_bytes : list (list ascii) := map (map ascii_of_nat) whitespace.

(** Drops one leading whitespace character, if there is one. *)
Definition drop_space (seqs : list (list ascii)) (l : list ascii) : option (list ascii) :=
  match find (fun p => starts_with p l) seqs with
  | Some p => Some (skipn (List.length p) l)
  | None => None
  end.

Fixpoint lstrip_bytes (seqs : list (list ascii)) (fuel : nat) (l : list ascii) : list ascii :=
  match fuel with
  | 0 => l
  | S fuel' =>
      match drop_space seqs l with
      | Some l' => lstrip_bytes seqs fuel' l'
      | None => l
      end
  end.

(** [s.strip()]: leading whitespace goes, then trailing whitespace (the
    same scan on the reversed bytes with the reversed sequences). *)
Definition strip (s : string) : string :=
  let l := bytes s in
  let l1 := lstrip_bytes whitespace_bytes (List.length l) l in
  let r := rev l1 in
  of_bytes (rev (lstrip_bytes (map (@rev ascii) whitespace_bytes) (List.length r) r)).

End PyStr.

(** ** Data model *)

(** The exceptions that reach [chat_loop].  [except Exception] catches all
    of them but the two that derive from [BaseException] only. *)
Inductive exn : Type :=
| ValueError (msg : string)
| RuntimeError (msg : string)
| IndexError (msg : string)
| AttributeError (msg : string)
| JSONDecodeError (msg : string)
| EOFError (msg : string)
| OtherException (msg : string)
| KeyboardInterrupt
| CancelledError.

Definition is_Exception (e : exn) : bool :=
  match e with
  | KeyboardInterrupt | CancelledError => false
  | _ => true
  end.

(** [str(e)] *)
Definition str_exn (e : exn) : string :=
  match e with
  | ValueError m | RuntimeError m | IndexError m | AttributeError m
  | JSONDecodeError m | EOFError m | OtherException m => m
  | KeyboardInterrupt | CancelledError => EmptyString
  end.

(** What a call to a collaborator gives back. *)
Inductive reply (A : Type) : Type :=
| Returns (a : A)
| Raises (e : exn).
Arguments Raises {A} e.

(** One entry of an assistant message's ["tool_calls"] list. *)
Record tool_call : Type := {
  tc_id : string;
  tc_type : string;
  tc_function_name : string;
  tc_function_arguments : string
}.

(** A message dict; an absent key is [None], and so is the assistant
    message's ["content": None]. *)
Record message : Type := {
  role : string;
  content : option string;
  tool_calls : option (list tool_call);
  tool_call_id : option string
}.

(** The parts of a model output message: [.text] exists on output text only. *)
Inductive content_part : Type :=
| OutputText (text : string)
| OutputRefusal (refusal : string).

(** The items of [response.output]; [output_type] is the item's [.type]. *)
Inductive output_item : Type :=
| OutputMessage (parts : list content_part)
| FunctionCall (call_id name arguments : string)
| OtherOutput (type : string).

Definition output_type (o : output_item) : string :=
  match o with
  | OutputMessage _ => "message"
  | FunctionCall _ _ _ => "function_call"
  | OtherOutput t => t
  end.

Record response : Type := { output : list output_item }.

Record StdioServerParameters : Type := {
  command : string;
  args : list string;
  env : option (list (string * string))
}.

(** Values whose shape depends on the provider: [Json] is a decoded JSON
    value (a tool's input schema, the decoded arguments of a call) and
    [NonText] a content segment of a tool result that is not a [TextContent]. *)
Section Values.

Variables Json NonText : Type.

(** An entry of [response.tools]. *)
Record Tool : Type := {
  name : string;
  description : option string;
  inputSchema : Json
}.

(** The dict built for each tool and passed as [tools=functions]. *)
Record function_schema : Type := {
  fn_type : string;
  fn_name : string;
  fn_description : option string;
  fn_parameters : Json;
  fn_strict : bool
}.

Inductive mcp_content : Type :=
| TextContent (text : string)
| NonTextContent (c : NonText).

Record CallToolResult : Type := {
  result_content : list mcp_content;
  isError : bool
}.

(** The calls the client makes to its collaborators, with their arguments. *)
Inductive event : Type :=
| EvStdioClient (server_params : StdioServerParameters)
| EvClientSession
| EvInitialize
| EvListTools
| EvCreate (model : string) (input : list message)
           (tools : list function_schema) (tool_choice : string)
| EvCallTool (tool_name : string) (tool_args : Json)
| EvInput (prompt : string)
| EvPrint (text : string)
| EvPrintConnected (tool_names : list string).

End Values.

Arguments EvStdioClient {Json} server_params.
Arguments EvClientSession {Json}.
Arguments EvInitialize {Json}.
Arguments EvListTools {Json}.
Arguments EvInput {Json} prompt.
Arguments EvPrint {Json} text.
Arguments EvPrintConnected {Json} tool_names.

(** ** The collaborators *)

(** Each operation takes the state of the outside world and gives back its
    reply and the world after the call. *)
Class Collaborators : Type := {
  World : Type;
  Json : Type;
  NonText : Type;
  Transport : Type;
  Session : Type;
  (** [str(content)] for a segment that is not a [TextContent] *)
  str_content : NonText -> string;
  (** [json.loads] *)
  json_loads : string -> reply Json;
  (** entering [stdio_client(server_params)] *)
  stdio_client : StdioServerParameters -> World -> reply Transport * World;
  (** entering [ClientSession(stdio, write)] *)
  ClientSession : Transport -> World -> reply Session * World;
  initialize : Session -> World -> reply unit * World;
  list_tools : Session -> World -> reply (list (Tool Json)) * World;
  call_tool : Session -> string -> Json -> World -> reply (CallToolResult NonText) * World;
  (** [gpt_client.responses.create(model, input, tools, tool_choice)] *)
  responses_create : string -> list message -> list (function_schema Json) -> string ->
                     World -> reply response * World;
  (** [input(prompt)] *)
  input : string -> World -> reply string * World
}.

(** ** Computations: state, recorded events, exceptions *)

Inductive result (A : Type) : Type :=
| Ok (a : A)
| Raise (e : exn)
| OutOfFuel.
Arguments Raise {A} e.
Arguments OutOfFuel {A}.

(** How a loop body ends: [break], or falling through to the next round. *)
Inductive control : Type := Break | Continue.

Section Monad.

Context {C : Collaborators}.

Definition trace : Type := list (event Json).

Definition M (S A : Type) : Type := S -> result A * S * trace.

Definition ret {S A} (a : A) : M S A := fun s => (Ok a, s, []).

Definition raise {S A} (e : exn) : M S A := fun s => (Raise e, s, []).

Definition bind {S A B} (m : M S A) (k : A -> M S B) : M S B :=
  fun s =>
    match m s with
    | (Ok a, s1, t1) => let '(r, s2, t2) := k a s1 in (r, s2, t1 ++ t2)
    | (Raise e, s1, t1) => (Raise e, s1, t1)
    | (OutOfFuel, s1, t1) => (OutOfFuel, s1, t1)
    end.

Definition gets {S A} (f : S -> A) : M S A := fun s => (Ok (f s), s, []).

Definition modify {S} (f : S -> S) : M S unit := fun s => (Ok tt, f s, []).

(** The states that hold the outside world. *)
Class HasWorld (S : Type) : Type := {
  get_world : S -> World;
  set_world : World -> S -> S
}.

#[export] Instance World_HasWorld : HasWorld World :=
  {| get_world := fun w => w; set_world := fun w _ => w |}.

(** A call to a collaborator: the event is recorded whatever the reply. *)
Definition call {S} `{HasWorld S} {A} (ev : event Json) (op : World -> reply A * World)
  : M S A :=
  fun s =>
    match op (get_world s) with
    | (Returns a, w1) => (Ok a, set_world w1 s, [ev])
    | (Raises e, w1) => (Raise e, set_world w1 s, [ev])
    end.

Definition print {S} (text : string) : M S unit := fun s => (Ok tt, s, [EvPrint text]).

(** [try: m except Exception as e: h e] *)
Definition try_except {S A} (m : M S A) (h : exn -> M S A) : M S A :=
  fun s =>
    match m s with
    | (Raise e, s1, t1) =>
        if is_Exception e
        then let '(r, s2, t2) := h e s1 in (r, s2, t1 ++ t2)
        else (Raise e, s1, t1)
    | other => other
    end.

(** [while True: body], cut after [fuel] rounds. *)
Fixpoint while_true {S} (fuel : nat) (body : M S control) : M S unit :=
  match fuel with
  | 0 => fun s => (OutOfFuel, s, [])
  | S fuel' =>
      fun s =>
        match body s with
        | (Ok Break, s1, t1) => (Ok tt, s1, t1)
        | (Ok Continue, s1, t1) =>
            let '(r, s2, t2) := while_true fuel' body s1 in (r, s2, t1 ++ t2)
        | (Raise e, s1, t1) => (Raise e, s1, t1)
        | (OutOfFuel, s1, t1) => (OutOfFuel, s1, t1)
        end
  end.

(** [l[0]] *)
Definition index0 {S A} (l : list A) : M S A :=
  match l with
  | x :: _ => ret x
  | [] => raise (IndexError "list index out of range")
  end.

End Monad.

Declare Scope monad_scope.
Notation "x <- m ;; k" := (bind m (fun x => k))
  (at level 61, m at next level, right associativity) : monad_scope.
Notation "' pat <- m ;; k" := (bind m (fun x => match x with pat => k end))
  (at level 61, pat pattern, m at next level, right associativity) : monad_scope.
Notation "m ;; k" := (bind m (fun _ => k))
  (at level 61, right associativity) : monad_scope.
Local Open Scope monad_scope.

(** ** The client *)

Section Client.

Context {C : Collaborators}.

(** The fields of [self] that the methods read or assign. *)
Record MCPClient : Type := {
  transport : option Transport;   (* [self.stdio, self.write] *)
  session : option Session
}.

(** [MCPClient.__init__] *)
Definition init_client : MCPClient := {| transport := None; session := None |}.

(** [self.session.m(...)]: [self.session] may still be [None]. *)
Definition the_session {S} (self : MCPClient) (method : string) : M S Session :=
  match session self with
  | Some sess => ret sess
  | None => raise (AttributeError ("'NoneType' object has no attribute '" ++ method ++ "'"))
  end.

(** *** connect_to_server *)

Record connecting : Type := { self_of : MCPClient; world_of : World }.

#[export] Instance connecting_HasWorld : HasWorld connecting :=
  {| get_world := world_of;
     set_world := fun w s => {| self_of := self_of s; world_of := w |} |}.

Definition assign_self (f : MCPClient -> MCPClient) : M connecting unit :=
  modify (fun s => {| self_of := f (self_of s); world_of := world_of s |}).

Definition connect_to_server (server_script_path : string) : M connecting unit :=
  let is_python := PyStr.endswith server_script_path ".py" in
  let is_js := PyStr.endswith server_script_path ".js" in
  if negb (is_python || is_js)
  then raise (ValueError "Server script must be a .py or .js file")
  else
    let command := if is_python then "python" else "node" in
    let server_params :=
      {| command := command; args := [server_script_path]; env := None |} in
    stdio_transport <- call (EvStdioClient server_params) (stdio_client server_params) ;;
    assign_self (fun self =>
      {| transport := Some stdio_transport; session := session self |}) ;;
    sess <- call EvClientSession (ClientSession stdio_transport) ;;
    assign_self (fun self => {| transport := transport self; session := Some sess |}) ;;
    call EvInitialize (initialize sess) ;;
    (* List available tools *)
    tools <- call EvListTools (list_tools sess) ;;
    fun s => (Ok tt, s, [EvPrintConnected (map (@name Json) tools)]).

(** *** process_query *)

Definition system_prompt : string :=
  "You are a helpful assistant. If a relevant function is available, always use the function call system "
  ++ "instead of explaining it. Do not describe or suggest function calls — just call the function directly.".

Definition system_message : message :=
  {| role := "system"; content := Some system_prompt;
     tool_calls := None; tool_call_id := None |}.

Definition user_message (query : string) : message :=
  {| role := "user"; content := Some query; tool_calls := None; tool_call_id := None |}.

Definition assistant_message (call_id name arguments : string) : message :=
  {| role := "assistant";
     content := None;
     tool_calls := Some [ {| tc_id := call_id;
                             tc_type := "function";
                             tc_function_name := name;
                             tc_function_arguments := arguments |} ];
     tool_call_id := None |}.

Definition tool_output_message (call_id tool_result_text : string) : message :=
  {| role := "tool"; content := Some tool_result_text;
     tool_calls := None; tool_call_id := Some call_id |}.

(** The locals of [process_query] that the loop assigns, and the world. *)
Record locals : Type := {
  messages : list message;
  final_text : list string;
  world : World
}.

#[export] Instance locals_HasWorld : HasWorld locals :=
  {| get_world := world;
     set_world := fun w s =>
       {| messages := messages s; final_text := final_text s; world := w |} |}.

(** [messages.append(m)] *)
Definition messages_append (m : message) : M locals unit :=
  modify (fun s =>
    {| messages := messages s ++ [m]; final_text := final_text s; world := world s |}).

(** [final_text.append(text)] *)
Definition final_text_append (text : string) : M locals unit :=
  modify (fun s =>
    {| messages := messages s; final_text := final_text s ++ [text]; world := world s |}).

(** Step 1, the loop over [response.tools]. *)
Definition functions_of (tools : list (Tool Json)) : list (function_schema Json) :=
  fold_left
    (fun functions tool =>
       functions ++ [ {| fn_type := "function";
                         fn_name := name tool;
                         fn_description := description tool;
                         fn_parameters := inputSchema tool;
                         fn_strict := false |} ])
    tools [].

(** The loop over [result.content] that extracts the text of a tool result. *)
Definition tool_result_text (result_content : list (mcp_content NonText)) : string :=
  fold_left
    (fun tool_result_text content =>
       match content with
       | TextContent _ text => (tool_result_text ++ text)%string
       | NonTextContent c => (tool_result_text ++ str_content c)%string
       end)
    result_content EmptyString.

(** Attribute reads on an output item and on a content part. *)
Definition get_content {S} (o : output_item) : M S (list content_part) :=
  match o with
  | OutputMessage parts => ret parts
  | _ => raise (AttributeError "content")
  end.

Definition get_text {S} (p : content_part) : M S string :=
  match p with
  | OutputText text => ret text
  | OutputRefusal _ =>
      raise (AttributeError "'ResponseOutputRefusal' object has no attribute 'text'")
  end.

Definition get_call {S} (o : output_item) : M S (string * string * string) :=
  match o with
  | FunctionCall call_id name arguments => ret (call_id, name, arguments)
  | _ => raise (AttributeError "call_id")
  end.

(** [json.loads(arguments)] *)
Definition loads {S} (arguments : string) : M S Json :=
  match json_loads arguments with
  | Returns v => ret v
  | Raises e => raise e
  end.

(** One pass through the body of [while True]. *)
Definition round (self : MCPClient) (functions : list (function_schema Json))
  : M locals control :=
  (* Step 2: Get model response *)
  input_messages <- gets messages ;;
  response <- call (EvCreate "gpt-4" input_messages functions "auto")
                   (responses_create "gpt-4" input_messages functions "auto") ;;
  (* Step 3: Handle model output *)
  output <- index0 (output response) ;;
  if output_type output =? "message" then
    parts <- get_content output ;;
    part <- index0 parts ;;
    message_content <- get_text part ;;
    final_text_append message_content ;;
    ret Break
  else if output_type output =? "function_call" then
    (* 3a. Prepare assistant tool call message *)
    '(call_id, tool_name, arguments) <- get_call output ;;
    messages_append (assistant_message call_id tool_name arguments) ;;
    (* 3b. Execute the actual tool *)
    tool_args <- loads arguments ;;
    sess <- the_session self "call_tool" ;;
    result <- call (EvCallTool tool_name tool_args) (call_tool sess tool_name tool_args) ;;
    (* 3c. Append tool output message *)
    messages_append (tool_output_message call_id (tool_result_text (result_content result))) ;;
    ret Continue
  else
    raise (RuntimeError ("Unexpected output type: " ++ output_type output)).

Definition initial_locals (query : string) (w : World) : locals :=
  {| messages := [system_message; user_message query]; final_text := []; world := w |}.

(** [process_query], run from the world [w]: the result, the locals as
    they are when the method returns or raises, and the calls made. *)
Definition process_query (fuel : nat) (self : MCPClient) (query : string) (w : World)
  : result string * locals * trace :=
  (sess <- the_session self "list_tools" ;;
   tools <- call EvListTools (list_tools sess) ;;
   while_true fuel (round self (functions_of tools)) ;;
   final <- gets final_text ;;
   ret (PyStr.join PyStr.nl final))
  (initial_locals query w).

(** *** chat_loop *)

Definition prompt : string := PyStr.nl ++ "Query: ".

(** [await self.process_query(query)] seen from the caller: the locals
    are gone, the world stays. *)
Definition await_process_query (fuel : nat) (self : MCPClient) (query : string)
  : M World string :=
  fun w => let '(r, st, t) := process_query fuel self query w in (r, world st, t).

(** The [try] block of the prompt loop. *)
Definition chat_try (fuel : nat) (self : MCPClient) : M World control :=
  line <- call (EvInput prompt) (input prompt) ;;
  let query := PyStr.strip line in
  if PyStr.lower query =? "quit" then ret Break
  else
    response <- await_process_query fuel self query ;;
    print (PyStr.nl ++ response) ;;
    ret Continue.

(** The [except Exception as e] handler. *)
Definition chat_except (e : exn) : M World control :=
  print (PyStr.nl ++ "Error: " ++ str_exn e) ;;
  ret Continue.

Definition chat_body (fuel : nat) (self : MCPClient) : M World control :=
  try_except (chat_try fuel self) chat_except.

(** The [while True] of [chat_loop]; [query_fuel] bounds the rounds of each
    query, [fuel] the number of prompts. *)
Definition prompt_loop (query_fuel fuel : nat) (self : MCPClient) : M World unit :=
  while_true fuel (chat_body query_fuel self).

Definition chat_loop (query_fuel fuel : nat) (self : MCPClient) : M World unit :=
  print (PyStr.nl ++ "MCP Client Started!") ;;
  print "Type your queries or 'quit' to exit." ;;
  prompt_loop query_fuel fuel self.

End Client.

(** ** Properties stated in the specification's own terms *)

(** The concatenation of strings in order, nothing in between. *)
Definition concatenation (l : list string) : string :=
  fold_right String.append EmptyString l.

(** The text a content segment contributes: its text, or its rendering. *)
Definition segment_text {C : Collaborators} (c : mcp_content NonText) : string :=
  match c with
  | TextContent _ text => text
  | NonTextContent s => str_content s
  end.

(** [l1] is an initial part of [l2]. *)
Definition prefix {A} (l1 l2 : list A) : Prop := exists rest, l2 = l1 ++ rest.

(** Every sequence in the list extends the one before it. *)
Fixpoint append_only {A} (snapshots : list (list A)) : Prop :=
  match snapshots with
  | a :: (b :: _) as later => prefix a b /\ append_only later
  | _ => True
  end.

(** The message sequences handed to the model, in the order of the calls. *)
Fixpoint model_inputs {Json} (t : list (event Json)) : list (list message) :=
  match t with
  | [] => []
  | EvCreate _ input _ _ :: t' => input :: model_inputs t'
  | _ :: t' => model_inputs t'
  end.

Definition is_system (m : message) : bool := role m =? "system".

(** The sequence starts with the priming message, followed by the query,
    and holds no other message of role system. *)
Definition primed_once (query : string) (ms : list message) : Prop :=
  exists rest,
    ms = system_message :: user_message query :: rest
    /\ Forall (fun m => is_system m = false) rest.

(** The call identifiers an assistant-role message records. *)
Definition recorded_call_ids (m : message) : list string :=
  match tool_calls m with
  | Some calls => map tc_id calls
  | None => []
  end.

(** Every tool-role message answers a call recorded by an assistant-role
    message strictly earlier in the sequence. *)
Definition back_references_ok (ms : list message) : Prop :=
  forall i m,
    nth_error ms i = Some m ->
    role m = "tool" ->
    exists j a call_id,
      j < i
      /\ nth_error ms j = Some a
      /\ role a = "assistant"
      /\ In call_id (recorded_call_ids a)
      /\ tool_call_id m = Some call_id.

(** The sixteen spellings of [quit] in any letter case. *)
Definition quit_spellings : list string :=
  flat_map (fun q =>
  flat_map (fun u =>
  flat_map (fun i =>
       map (fun t => (q ++ u ++ i ++ t)%string) ["t"; "T"]) ["i"; "I"]) ["u"; "U"]) ["q"; "Q"].

Definition quit_any_case (line : string) : bool :=
  existsb (String.eqb line) quit_spellings.

(** The server implementation kinds [connect_to_server] accepts. *)
Definition supported_kind (server_script_path : string) : bool :=
  PyStr.endswith server_script_path ".py" || PyStr.endswith server_script_path ".js".

(** ** A scripted environment

    Collaborators that replay fixed replies: used to run the client on
    concrete conversations.  A decoded JSON value is kept as its text, and a
    non-text segment as its rendering. *)
Module Scripted.

Record script : Type := {
  launchable : bool;
  provider_tools : list (Tool string);
  model_script : list (reply response);
  tool_script : list (reply (CallToolResult string));
  input_script : list string
}.

(** A stand-in for [json.loads]: a blob wrapped in braces decodes. *)
Definition loads_braced (blob : string) : reply string :=
  if (PyStr.starts_with (PyStr.bytes "{") (PyStr.bytes blob)
      && PyStr.endswith blob "}")%bool
  then Returns blob
  else Raises (JSONDecodeError "Expecting value: line 1 column 1 (char 0)").

Definition next_reply {A} (script : list (reply A)) (on_end : exn)
  : reply A * list (reply A) :=
  match script with
  | r :: script' => (r, script')
  | [] => (Raises on_end, [])
  end.

#[export] Instance collaborators : Collaborators := {|
  World := script;
  Json := string;
  NonText := string;
  Transport := unit;
  Session := unit;
  str_content := fun rendering => rendering;
  json_loads := loads_braced;
  stdio_client := fun _ w =>
    if launchable w then (Returns tt, w)
    else (Raises (OtherException "[Errno 2] No such file or directory"), w);
  ClientSession := fun _ w => (Returns tt, w);
  initialize := fun _ w => (Returns tt, w);
  list_tools := fun _ w => (Returns (provider_tools w), w);
  call_tool := fun _ _ _ w =>
    let '(r, script') := next_reply (tool_script w) (OtherException "Connection closed") in
    (r, {| launchable := launchable w; provider_tools := provider_tools w;
           model_script := model_script w; tool_script := script';
           input_script := input_script w |});
  responses_create := fun _ _ _ _ w =>
    let '(r, script') := next_reply (model_script w) (OtherException "Connection error.") in
    (r, {| launchable := launchable w; provider_tools := provider_tools w;
           model_script := script'; tool_script := tool_script w;
           input_script := input_script w |});
  input := fun _ w =>
    match input_script w with
    | line :: lines =>
        (Returns line,
         {| launchable := launchable w; provider_tools := provider_tools w;
            model_script := model_script w; tool_script := tool_script w;
            input_script := lines |})
    | [] => (Raises (EOFError "EOF when reading a line"), w)
    end
|}.

Definition connected : MCPClient := {| transport := Some tt; session := Some tt |}.

(** The weather conversation: one tool call, then the answer. *)
Definition boston_arguments : string :=
  "{" ++ PyStr.dquote ++ "city" ++ PyStr.dquote ++ ":"
      ++ PyStr.dquote ++ "Boston" ++ PyStr.dquote ++ "}".

Definition get_weather : Tool string :=
  {| name := "get_weather";
     description := Some "Current weather of a city";
     inputSchema := "{}" |}.

Definition weather_call : output_item :=
  FunctionCall "call_1" "get_weather" boston_arguments.

Definition weather_answer : string := "It's 72F and sunny in Boston.".

Definition says (o : output_item) : reply response := Returns {| output := [o] |}.

Definition weather_world : script :=
  {| launchable := true;
     provider_tools := [get_weather];
     model_script := [says weather_call; says (OutputMessage [OutputText weather_answer])];
     tool_script := [Returns {| result_content := [TextContent _ "72F"; NonTextContent ", sunny"];
                                isError := false |}];
     input_script := ["What's the weather in Boston?"; "QuIt"] |}.

Definition weather_query : string := "What's the weather in Boston?".

(** The locals at the head of the loop after the tool round. *)
Definition weather_after_tool : locals :=
  {| messages := [system_message; user_message weather_query;
                  assistant_message "call_1" "get_weather" boston_arguments;
                  tool_output_message "call_1" "72F, sunny"];
     final_text := [];
     world := {| launchable := true; provider_tools := [get_weather];
                 model_script := [says (OutputMessage [OutputText weather_answer])];
                 tool_script := [];
                 input_script := input_script weather_world |} |}.

(** A model that answers with an item of an unknown kind. *)
Definition reasoning_world : script :=
  {| launchable := true; provider_tools := [get_weather];
     model_script := [says (OtherOutput "reasoning")];
     tool_script := [];
     input_script := ["think"; "quit"] |}.

(** A model whose call carries arguments that are not JSON. *)
Definition malformed_world : script :=
  {| launchable := true; provider_tools := [get_weather];
     model_script := [says (FunctionCall "call_9" "get_weather" "city=Boston")];
     tool_script := [];
     input_script := [] |}.

(** A machine without the interpreter of the server script: the server
    process cannot be started. *)
Definition missing_server_world : script :=
  {| launchable := false; provider_tools := []; model_script := [];
     tool_script := []; input_script := [] |}.

(** A user who types [quit] followed by a space. *)
Definition padded_quit_world : script :=
  {| launchable := true; provider_tools := [get_weather];
     model_script := []; tool_script := [];
     input_script := ["quit "; "hello"] |}.

(** A user who quits at once, in mixed case. *)
Definition mixed_case_quit_world : script :=
  {| launchable := true; provider_tools := [get_weather];
     model_script := []; tool_script := [];
     input_script := ["QuIt"; "hello"] |}.

(** The world once the first line has been read. *)
Definition after_first_line (w : script) : script :=
  {| launchable := launchable w; provider_tools := provider_tools w;
     model_script := model_script w; tool_script := tool_script w;
     input_script := tl (input_script w) |}.

(** The world at the end of the weather conversation. *)
Definition weather_end : script :=
  {| launchable := true; provider_tools := [get_weather];
     model_script := []; tool_script := [];
     input_script := input_script weather_world |}.

(** The calls of the tool round of the weather conversation. *)
Definition weather_tool_round : trace :=
  [EvCreate "gpt-4" [system_message; user_message weather_query]
            (functions_of [get_weather]) "auto";
   EvCallTool "get_weather" boston_arguments].

End Scripted.

(** ** Where a run of [process_query] stands *)

Section Reachability.

Context {C : Collaborators}.

(** [k] passes through a loop body that all fall through to the next
    one: the state reached and the calls made. *)
Fixpoint rounds {S} (k : nat) (body : M S control) (s : S) : option (S * trace) :=
  match k with
  | 0 => Some (s, [])
  | S k' =>
      match body s with
      | (Ok Continue, s1, t1) =>
          match rounds k' body s1 with
          | Some (s2, t2) => Some (s2, t1 ++ t2)
          | None => None
          end
      | _ => None
      end
  end.

(** [process_query self query], started in world [w], has enumerated the
    tools, built [functions] from them, and completed [k] rounds, each of
    them a tool call; it is at the head of the loop with locals [st],
    having made the calls [t] since the enumeration. *)
Definition loop_head (self : MCPClient) (query : string) (w : World)
           (functions : list (function_schema Json))
           (k : nat) (st : locals) (t : trace) : Prop :=
  exists sess tools w0,
    session self = Some sess
    /\ list_tools sess w = (Returns tools, w0)
    /\ functions = functions_of tools
    /\ rounds k (round self functions) (set_world w0 (initial_locals query w)) = Some (st, t).

(** What the model replies when called at the head of the loop. *)
Definition model_reply (functions : list (function_schema Json)) (st : locals)
  : reply response * World :=
  responses_create "gpt-4" (messages st) functions "auto" (world st).

(** The model call made at the head of the loop. *)
Definition model_call (functions : list (function_schema Json)) (st : locals)
  : event Json :=
  EvCreate "gpt-4" (messages st) functions "auto".

(** The locals [st] after a model call that left the world as [w]. *)
Definition with_world (st : locals) (w : World) : locals :=
  {| messages := messages st; final_text := final_text st; world := w |}.

(** What a round that ends as [r] has appended to [messages]. *)
Inductive appended : result control -> list message -> Prop :=
| appended_nothing : forall r, r <> Ok Continue -> appended r []
| appended_request : forall e call_id name arguments,
    appended (Raise e) [assistant_message call_id name arguments]
| appended_exchange : forall call_id name arguments text,
    appended (Ok Continue)
             [assistant_message call_id name arguments;
              tool_output_message call_id text].

(** The function schema the first loop of [process_query] builds for a tool. *)
Definition function_for (tool : Tool Json) : function_schema Json :=
  {| fn_type := "function";
     fn_name := name tool;
     fn_description := description tool;
     fn_parameters := inputSchema tool;
     fn_strict := false |}.

(** How [process_query] can go: no session, a failed enumeration, or
    the loop run on the functions built from the enumerated tools. *)
Inductive run_shape (fuel : nat) (self : MCPClient) (query : string) (w : World)
  : result string * locals * trace -> Prop :=
| run_no_session : forall e,
    session self = None ->
    run_shape fuel self query w (Raise e, initial_locals query w, [])
| run_enumeration_failed : forall sess e w0,
    session self = Some sess ->
    list_tools sess w = (Raises e, w0) ->
    run_shape fuel self query w
              (Raise e, set_world w0 (initial_locals query w), [EvListTools])
| run_loop : forall sess tools w0 r r' st t,
    session self = Some sess ->
    list_tools sess w = (Returns tools, w0) ->
    while_true fuel (round self (functions_of tools))
               (set_world w0 (initial_locals query w)) = (r', st, t) ->
    run_shape fuel self query w (r, st, EvListTools :: t).

(** What one pass of the prompt loop does once it has read a line that
    it treats as the query [query], in the world [w0] the read left:
    [process_query] runs on it, then the answer is printed, or the error
    when an [Exception] was raised, and the loop goes on. *)
Definition query_served (query_fuel : nat) (self : MCPClient) (query : string) (w0 : World)
  : result control * World * trace :=
  let '(r, st, t) := process_query query_fuel self query w0 in
  match r with
  | Ok response =>
      (Ok Continue, world st, EvInput prompt :: t ++ [EvPrint (PyStr.nl ++ response)])
  | Raise e =>
      if is_Exception e
      then (Ok Continue, world st,
            EvInput prompt :: t ++ [EvPrint (PyStr.nl ++ "Error: " ++ str_exn e)])
      else (Raise e, world st, EvInput prompt :: t)
  | OutOfFuel => (OutOfFuel, world st, EvInput prompt :: t)
  end.

(** The parameters [connect_to_server] starts the server with. *)
Definition server_params_for (server_script_path : string) : StdioServerParameters :=
  {| command := if PyStr.endswith server_script_path ".py" then "python" else "node";
     args := [server_script_path];
     env := None |}.

End Reachability.

(** ** Start-up and shutdown: [__init__], [cleanup], [main] *)

(** The two collaborators that only [main] reaches: the constructor of the
    model API client, called by [MCPClient.__init__], and the exit stack that
    the transport and the session were entered on. *)
Class Lifecycle {C : Collaborators} : Type := {
  (** [OpenAI()] *)
  OpenAI : World -> reply unit * World;
  (** [self.exit_stack.aclose()] *)
  aclose : World -> reply unit * World
}.

Section Main.

Context {C : Collaborators} {L : Lifecycle}.

(** The calls [main] makes: those of the client's methods, and its own. *)
Inductive main_event : Type :=
| Client (ev : event Json)
| EvOpenAI
| EvAclose.

(** How the process ends: [main] returned, [sys.exit(code)], an exception
    nobody caught, or still running when the rounds were cut. *)
Inductive exit_status : Type :=
| Returned
| SysExit (code : nat)
| Uncaught (e : exn)
| Unfinished.

(** [MCPClient()]: the fields start as [None], the model client is built. *)
Definition new_client (w : World) : reply MCPClient * World * list main_event :=
  match OpenAI w with
  | (Returns _, w1) => (Returns init_client, w1, [EvOpenAI])
  | (Raises e, w1) => (Raises e, w1, [EvOpenAI])
  end.

(** [cleanup] *)
Definition cleanup (w : World) : reply unit * World * list main_event :=
  let '(r, w1) := aclose w in (r, w1, [EvAclose]).

(** The [try] block of [main]. *)
Definition main_try (query_fuel fuel : nat) (client : MCPClient) (path : string) (w : World)
  : result unit * World * trace :=
  match connect_to_server path {| self_of := client; world_of := w |} with
  | (Ok _, s, t1) =>
      let '(r, w2, t2) := chat_loop query_fuel fuel (self_of s) (world_of s) in
      (r, w2, t1 ++ t2)
  | (Raise e, s, t1) => (Raise e, world_of s, t1)
  | (OutOfFuel, s, t1) => (OutOfFuel, world_of s, t1)
  end.

Definition usage : string := "Usage: python client.py <path_to_server_script>".

(** [main], with [sys.argv] as [argv].  The [finally] clause runs
    [cleanup] when the [try] block returns and when it raises; an exception
    of [cleanup] replaces the one that was on its way. *)
Definition main (argv : list string) (query_fuel fuel : nat) (w : World)
  : exit_status * World * list main_event :=
  if Nat.ltb (List.length argv) 2
  then (SysExit 1, w, [Client (EvPrint usage)])
  else
    match new_client w with
    | (Raises e, w1, t0) => (Uncaught e, w1, t0)
    | (Returns client, w1, t0) =>
        let '(r, w2, t1) := main_try query_fuel fuel client (nth 1 argv EmptyString) w1 in
        match r with
        | OutOfFuel => (Unfinished, w2, t0 ++ map Client t1)
        | Ok _ =>
            let '(c, w3, t2) := cleanup w2 in
            (match c with Returns _ => Returned | Raises e' => Uncaught e' end,
             w3, t0 ++ map Client t1 ++ t2)
        | Raise e =>
            let '(c, w3, t2) := cleanup w2 in
            (match c with Returns _ => Uncaught e | Raises e' => Uncaught e' end,
             w3, t0 ++ map Client t1 ++ t2)
        end
    end.

End Main.

(** ** A replayed environment

    Collaborators that answer each call with the next entry of a list, when
    that entry is for the operation called.  At the end of the list the
    console is at end of input and every other call fails. *)
Module Replay.

Inductive canned : Type :=
| OnOpenAI (r : reply unit)
| OnStdioClient (r : reply unit)
| OnClientSession (r : reply unit)
| OnInitialize (r : reply unit)
| OnListTools (r : reply (list (Tool string)))
| OnCreate (r : reply response)
| OnCallTool (r : reply (CallToolResult string))
| OnInput (r : reply string)
| OnAclose (r : reply unit).

Definition unexpected {A} : reply A := Raises (OtherException "Connection closed").

(** The reply to a call: [pick] reads it off the next entry. *)
Definition next {A} (pick : canned -> option (reply A)) (at_end : reply A)
           (w : list canned) : reply A * list canned :=
  match w with
  | [] => (at_end, [])
  | c :: w' =>
      match pick c with
      | Some r => (r, w')
      | None => (unexpected, w)
      end
  end.

#[export] Instance collaborators : Collaborators := {|
  World := list canned;
  Json := string;
  NonText := string;
  Transport := unit;
  Session := unit;
  str_content := fun rendering => rendering;
  json_loads := Scripted.loads_braced;
  stdio_client := fun _ =>
    next (fun c => match c with OnStdioClient r => Some r | _ => None end) unexpected;
  ClientSession := fun _ =>
    next (fun c => match c with OnClientSession r => Some r | _ => None end) unexpected;
  initialize := fun _ =>
    next (fun c => match c with OnInitialize r => Some r | _ => None end) unexpected;
  list_tools := fun _ =>
    next (fun c => match c with OnListTools r => Some r | _ => None end) unexpected;
  call_tool := fun _ _ _ =>
    next (fun c => match c with OnCallTool r => Some r | _ => None end) unexpected;
  responses_create := fun _ _ _ _ =>
    next (fun c => match c with OnCreate r => Some r | _ => None end) unexpected;
  input := fun _ =>
    next (fun c => match c with OnInput r => Some r | _ => None end)
         (Raises (EOFError "EOF when reading a line"))
|}.

#[export] Instance lifecycle : Lifecycle := {|
  OpenAI := next (fun c => match c with OnOpenAI r => Some r | _ => None end) unexpected;
  aclose := next (fun c => match c with OnAclose r => Some r | _ => None end) unexpected
|}.

Definition ok : reply unit := Returns tt.

Definition connected : MCPClient := {| transport := Some tt; session := Some tt |}.

Definition add : Tool string :=
  {| name := "add"; description := None; inputSchema := "{}" |}.

Definition asks (call_id arguments : string) : canned :=
  OnCreate (Returns {| output := [FunctionCall call_id "add" arguments] |}).

Definition answers (text : string) : canned :=
  OnCreate (Returns {| output := [OutputMessage [OutputText text]] |}).

Definition tool_says (text : string) : canned :=
  OnCallTool (Returns {| result_content := [TextContent _ text]; isError := false |}).

Definition listed : canned := OnListTools (Returns [add]).

(** A client that is not connected yet, in the world [w]. *)
Definition fresh (w : list canned) : connecting :=
  @Build_connecting collaborators init_client w.

(** The replies to a successful [connect_to_server]. *)
Definition handshake : list canned :=
  [OnStdioClient ok; OnClientSession ok; OnInitialize ok; OnListTools (Returns [add])].

End Replay.

(** ** The shape of a run *)

Section Shapes.

Context {C : Collaborators}.

(** One completed tool round: the call identifier, the tool name, the
    argument blob and the result text. *)
Definition exchange : Type := string * string * string * string.

Definition exchange_messages (x : exchange) : list message :=
  let '(call_id, name, arguments, text) := x in
  [assistant_message call_id name arguments; tool_output_message call_id text].

(** The number of tool calls among the events. *)
Fixpoint count_tool_calls (t : trace) : nat :=
  match t with
  | [] => 0
  | EvCallTool _ _ :: t' => S (count_tool_calls t')
  | _ :: t' => count_tool_calls t'
  end.

(** The number of model calls among the events. *)
Definition count_model_calls (t : trace) : nat := List.length (model_inputs t).

(** The events of a round: a model call or a tool call. *)
Definition round_event (ev : event Json) : bool :=
  match ev with
  | EvCreate _ _ _ _ | EvCallTool _ _ => true
  | _ => false
  end.

(** A model call with the model and the tool choice the client always
    asks for, and functions that are all of type function and not strict. *)
Definition standard_call (ev : event Json) : Prop :=
  match ev with
  | EvCreate model _ tools tool_choice =>
      model = "gpt-4" /\ tool_choice = "auto"
      /\ Forall (fun f => fn_type f = "function" /\ fn_strict f = false) tools
  | _ => True
  end.

(** The calls of a successful [connect_to_server], in order. *)
Definition connect_calls (server_script_path : string) : trace :=
  [EvStdioClient (server_params_for server_script_path);
   EvClientSession; EvInitialize; EvListTools].

(** The error [e] is the one a collaborator raised while
    [connect_to_server] was connecting from [s]: the transport, or, the
    calls before it having returned, the entry of the session, the handshake
    or the enumeration of the tools. *)
Definition raised_while_connecting (server_script_path : string) (s : connecting) (e : exn)
  : Prop :=
  let server_params := server_params_for server_script_path in
  (exists w1, stdio_client server_params (world_of s) = (Raises e, w1))
  \/ (exists tr w1 w2,
         stdio_client server_params (world_of s) = (Returns tr, w1)
         /\ ClientSession tr w1 = (Raises e, w2))
  \/ (exists tr w1 sess w2 w3,
         stdio_client server_params (world_of s) = (Returns tr, w1)
         /\ ClientSession tr w1 = (Returns sess, w2)
         /\ initialize sess w2 = (Raises e, w3))
  \/ (exists tr w1 sess w2 u w3 w4,
         stdio_client server_params (world_of s) = (Returns tr, w1)
         /\ ClientSession tr w1 = (Returns sess, w2)
         /\ initialize sess w2 = (Returns u, w3)
         /\ list_tools sess w3 = (Raises e, w4)).

End Shapes.

(** * Proofs *)

Section Proofs.

Context {C : Collaborators}.

Ltac run := unfold bind, ret, raise, gets, modify, call, print; simpl.

(** *** The loop combinator *)

Lemma while_true_rounds :
  forall S (body : M S control) k n s s1 t1,
    rounds k body s = Some (s1, t1) ->
    while_true (k + n) body s =
    let '(r, s2, t2) := while_true n body s1 in (r, s2, t1 ++ t2).
Proof.
  intros S body k. induction k as [|k IH]; intros n s s1 t1 Hr; simpl in *.
  - inversion Hr; subst. destruct (while_true n body s1) as [[r s2] t2]. reflexivity.
  - destruct (body s) as [[[[]|e|] s'] t'] eqn:Hb; try discriminate.
    destruct (rounds k body s') as [[s2 t2]|] eqn:Hk; try discriminate.
    inversion Hr; subst.
    rewrite (IH n s' s1 t2 Hk).
    destruct (while_true n body s1) as [[r s3] t3].
    now rewrite app_assoc.
Qed.

(** *** One round, case by case *)

Lemma round_plain_message :
  forall self functions st text parts items w1,
    model_reply functions st
    = (Returns {| output := OutputMessage (OutputText text :: parts) :: items |}, w1) ->
    round self functions st
    = (Ok Break,
       {| messages := messages st; final_text := final_text st ++ [text]; world := w1 |},
       [model_call functions st]).
Proof.
  intros self functions st text parts items w1 H.
  unfold model_reply in H. unfold round, model_call. run. rewrite H. reflexivity.
Qed.

Lemma round_unexpected_output :
  forall self functions st out items w1,
    model_reply functions st = (Returns {| output := out :: items |}, w1) ->
    output_type out <> "message" ->
    output_type out <> "function_call" ->
    round self functions st
    = (Raise (RuntimeError ("Unexpected output type: " ++ output_type out)),
       with_world st w1,
       [model_call functions st]).
Proof.
  intros self functions st out items w1 H Hm Hf.
  apply String.eqb_neq in Hm. apply String.eqb_neq in Hf.
  unfold model_reply in H. unfold round, model_call, with_world. run.
  rewrite H. simpl. rewrite Hm, Hf. reflexivity.
Qed.

Lemma round_malformed_arguments :
  forall self functions st call_id name arguments items w1 e,
    model_reply functions st
    = (Returns {| output := FunctionCall call_id name arguments :: items |}, w1) ->
    json_loads arguments = Raises e ->
    round self functions st
    = (Raise e,
       {| messages := messages st ++ [assistant_message call_id name arguments];
          final_text := final_text st;
          world := w1 |},
       [model_call functions st]).
Proof.
  intros self functions st call_id name arguments items w1 e H Hj.
  unfold model_reply in H. unfold round, model_call, loads. run.
  rewrite H. simpl. rewrite Hj. reflexivity.
Qed.

Lemma round_tool_exchange :
  forall self sess functions st call_id name arguments items w1 tool_args result w2,
    model_reply functions st
    = (Returns {| output := FunctionCall call_id name arguments :: items |}, w1) ->
    json_loads arguments = Returns tool_args ->
    session self = Some sess ->
    call_tool sess name tool_args w1 = (Returns result, w2) ->
    round self functions st
    = (Ok Continue,
       {| messages := messages st
                      ++ [assistant_message call_id name arguments;
                          tool_output_message call_id
                            (tool_result_text (result_content result))];
          final_text := final_text st;
          world := w2 |},
       [model_call functions st; EvCallTool name tool_args]).
Proof.
  intros self sess functions st call_id name arguments items w1 tool_args result w2
         H Hj Hs Hc.
  unfold model_reply in H. unfold round, model_call, loads, the_session. run.
  rewrite H. simpl. rewrite Hj, Hs. simpl. rewrite Hc. simpl.
  now rewrite <- app_assoc.
Qed.

(** What any round does to the locals, and which calls it makes. *)
Lemma round_effect :
  forall self functions st r st' t,
    round self functions st = (r, st', t) ->
    (exists delta, messages st' = messages st ++ delta /\ appended r delta)
    /\ (r = Ok Continue -> final_text st' = final_text st)
    /\ model_inputs t = [messages st]
    /\ (forall model input tools tool_choice,
          In (EvCreate model input tools tool_choice) t -> tools = functions).
Proof.
  intros self functions st r st' t H.
  unfold round, loads, the_session, index0, get_content, get_text, get_call in H.
  unfold bind, ret, raise, gets, modify, call, final_text_append, messages_append in H.
  simpl in H.
  repeat match type of H with
         | context [match ?x with _ => _ end] =>
             lazymatch x with
             | context [match _ with _ => _ end] => fail
             | _ => destruct x eqn:?; simpl in H
             end
         end;
    inversion H; subst; clear H; simpl;
    (split; [| split; [| split]]);
    try reflexivity; try discriminate;
    try (intros model input tools tool_choice [Hin|Hin];
         [ now inversion Hin
         | try destruct Hin as [Hin|Hin]; try now inversion Hin ]);
    try (exists []; rewrite app_nil_r; split;
         [reflexivity | apply appended_nothing; discriminate]);
    try (eexists; split; [reflexivity | constructor]);
    try (rewrite <- app_assoc; eexists; split; [reflexivity | constructor]).
Qed.

(** *** process_query from the head of the loop *)

Lemma rounds_final_text :
  forall self functions k st st' t,
    rounds k (round self functions) st = Some (st', t) ->
    final_text st' = final_text st.
Proof.
  intros self functions k. induction k as [|k IH]; intros st st' t H; simpl in H.
  - now inversion H.
  - destruct (round self functions st) as [[[[]|e|] s1] t1] eqn:Hr; try discriminate.
    destruct (rounds k (round self functions) s1) as [[s2 t2]|] eqn:Hk; try discriminate.
    inversion H; subst.
    rewrite (IH _ _ _ Hk).
    now apply (round_effect _ _ _ Hr).
Qed.

Lemma loop_head_final_text :
  forall self query w functions k st t,
    loop_head self query w functions k st t -> final_text st = [].
Proof.
  intros self query w functions k st t (sess & tools & w0 & _ & _ & _ & Hr).
  now rewrite (rounds_final_text _ _ _ _ Hr).
Qed.

Lemma process_query_from_head :
  forall self query w functions k st t n,
    loop_head self query w functions k st t ->
    process_query (k + n) self query w
    = match while_true n (round self functions) st with
      | (Ok _, s2, t2) =>
          (Ok (PyStr.join PyStr.nl (final_text s2)), s2, EvListTools :: t ++ t2)
      | (Raise e, s2, t2) => (Raise e, s2, EvListTools :: t ++ t2)
      | (OutOfFuel, s2, t2) => (OutOfFuel, s2, EvListTools :: t ++ t2)
      end.
Proof.
  intros self query w functions k st t n (sess & tools & w0 & Hs & Hl & -> & Hr).
  unfold process_query, the_session. rewrite Hs.
  unfold bind at 1. unfold ret at 1.
  unfold bind at 1. unfold call at 1. simpl get_world. rewrite Hl.
  unfold bind at 1.
  rewrite (while_true_rounds _ _ n _ Hr).
  destruct (while_true n (round self (functions_of tools)) st) as [[[u|e|] s2] t2];
    simpl; rewrite ?app_nil_r; reflexivity.
Qed.

(** C1 (amended).  When the model's output at the head of the loop is a
    plain message (the first one: every round before it was a tool call)
    whose first content part is a text part, [process_query] leaves the loop
    at once.  It returns exactly the text of that first part (the
    newline-join of the one accumulated text), whatever parts follow it;
    [messages] is as it was at the head of the loop, so nothing more was
    appended, and the model call of this round is the last call made. *)
Theorem process_query_returns_first_plain_message :
  forall self query w functions k st t text parts items w1 fuel,
    loop_head self query w functions k st t ->
    model_reply functions st
    = (Returns {| output := OutputMessage (OutputText text :: parts) :: items |}, w1) ->
    k < fuel ->
    process_query fuel self query w
    = (Ok text,
       {| messages := messages st; final_text := [text]; world := w1 |},
       EvListTools :: t ++ [model_call functions st]).
Proof.
  intros self query w functions k st t text parts items w1 fuel Hh Hm Hk.
  replace fuel with (k + S (fuel - S k)) by lia.
  rewrite (process_query_from_head _ Hh).
  simpl while_true. rewrite (round_plain_message _ _ _ Hm).
  rewrite (loop_head_final_text Hh). simpl.
  unfold PyStr.join. simpl. reflexivity.
Qed.

(** C4. When the model's output item at the head of the loop is neither a
    plain message nor a function call, [process_query] raises a
    [RuntimeError] naming the type: [messages] is as it was at the head of
    the loop, so nothing was appended for that round, and the model call of
    this round is the last call made, so the loop did not go on. *)
Theorem process_query_raises_on_unexpected_output :
  forall self query w functions k st t out items w1 fuel,
    loop_head self query w functions k st t ->
    model_reply functions st = (Returns {| output := out :: items |}, w1) ->
    output_type out <> "message" ->
    output_type out <> "function_call" ->
    k < fuel ->
    process_query fuel self query w
    = (Raise (RuntimeError ("Unexpected output type: " ++ output_type out)),
       {| messages := messages st; final_text := []; world := w1 |},
       EvListTools :: t ++ [model_call functions st]).
Proof.
  intros self query w functions k st t out items w1 fuel Hh Hm Hnm Hnf Hk.
  replace fuel with (k + S (fuel - S k)) by lia.
  rewrite (process_query_from_head _ Hh).
  simpl while_true. rewrite (round_unexpected_output _ _ _ Hm Hnm Hnf).
  unfold with_world. rewrite (loop_head_final_text Hh). reflexivity.
Qed.

(** C10. When the model's output at the head of the loop is a function
    call whose arguments [json.loads] rejects, [process_query] raises the
    decode error with the assistant message that records the request
    already appended to [messages], and with nothing after it: no tool
    message is appended and no tool is called in that round. *)
Theorem process_query_decode_error_after_append :
  forall self query w functions k st t call_id name arguments items w1 e fuel,
    loop_head self query w functions k st t ->
    model_reply functions st
    = (Returns {| output := FunctionCall call_id name arguments :: items |}, w1) ->
    json_loads arguments = Raises e ->
    k < fuel ->
    process_query fuel self query w
    = (Raise e,
       {| messages := messages st ++ [assistant_message call_id name arguments];
          final_text := [];
          world := w1 |},
       EvListTools :: t ++ [model_call functions st]).
Proof.
  intros self query w functions k st t call_id name arguments items w1 e fuel Hh Hm Hj Hk.
  replace fuel with (k + S (fuel - S k)) by lia.
  rewrite (process_query_from_head _ Hh).
  simpl while_true. rewrite (round_malformed_arguments _ _ _ Hm Hj).
  rewrite (loop_head_final_text Hh). reflexivity.
Qed.

(** *** The two list-building loops *)

Lemma string_append_assoc :
  forall a b c : string, ((a ++ b) ++ c = a ++ (b ++ c))%string.
Proof. induction a as [|x a IH]; intros b c; simpl; [reflexivity | now rewrite IH]. Qed.

Lemma string_append_empty : forall a : string, (a ++ EmptyString)%string = a.
Proof. induction a as [|x a IH]; simpl; congruence. Qed.

Lemma tool_result_text_from :
  forall cs acc,
    fold_left
      (fun tool_result_text content =>
         match content with
         | TextContent _ text => (tool_result_text ++ text)%string
         | NonTextContent c => (tool_result_text ++ str_content c)%string
         end) cs acc
    = (acc ++ concatenation (map segment_text cs))%string.
Proof.
  induction cs as [|c cs IH]; intro acc; simpl.
  - now rewrite string_append_empty.
  - rewrite IH. destruct c; simpl; now rewrite string_append_assoc.
Qed.

(** C2. The text extracted from a tool result is the concatenation, in
    order, of what each content segment contributes (its text for a text
    segment, its rendering otherwise), with nothing between two segments;
    a result without segments gives the empty string. *)
Theorem tool_result_text_concatenates :
  forall cs : list (mcp_content NonText),
    tool_result_text cs = concatenation (map segment_text cs)
    /\ tool_result_text (@nil (mcp_content NonText)) = EmptyString.
Proof.
  intro cs. split; [|reflexivity].
  unfold tool_result_text. now rewrite tool_result_text_from.
Qed.

Lemma functions_of_from :
  forall tools acc,
    fold_left (fun functions tool => functions ++ [function_for tool]) tools acc
    = acc ++ map function_for tools.
Proof.
  induction tools as [|tool tools IH]; intro acc; simpl.
  - now rewrite app_nil_r.
  - rewrite IH. now rewrite <- app_assoc.
Qed.

Lemma functions_of_map :
  forall tools, functions_of tools = map function_for tools.
Proof. intro tools. unfold functions_of. apply (functions_of_from tools []). Qed.

(** *** The whole run *)

Lemma process_query_shape :
  forall fuel self query w, run_shape fuel self query w (process_query fuel self query w).
Proof.
  intros fuel self query w. unfold process_query, the_session.
  destruct (session self) as [sess|] eqn:Hs.
  - unfold bind at 1. unfold ret at 1.
    unfold bind at 1. unfold call at 1. simpl get_world.
    destruct (list_tools sess w) as [[tools|e] w0] eqn:Hl.
    + unfold bind at 1.
      destruct (while_true fuel (round self (functions_of tools))
                           (set_world w0 (initial_locals query w)))
        as [[r' st] t] eqn:Hw.
      destruct r' as [u|e|]; simpl; rewrite ?app_nil_r;
        eapply run_loop; eassumption.
    + simpl. eapply run_enumeration_failed; eassumption.
  - unfold bind at 1. unfold raise at 1. now apply run_no_session.
Qed.

(** A property of [messages] that every round preserves holds of the
    final [messages] and of every sequence handed to the model. *)
Lemma while_true_messages_invariant :
  forall (P : list message -> Prop) self functions,
    (forall ms r delta, P ms -> appended r delta -> P (ms ++ delta)) ->
    forall fuel st r st' t,
      while_true fuel (round self functions) st = (r, st', t) ->
      P (messages st) ->
      P (messages st') /\ Forall P (model_inputs t).
Proof.
  intros P self functions Hstep. induction fuel as [|fuel IH]; intros st r st' t H HP.
  - simpl in H. inversion H; subst. split; [assumption | constructor].
  - simpl in H.
    destruct (round self functions st) as [[r1 s1] t1] eqn:Hr.
    destruct (round_effect _ _ _ Hr) as ((delta & Hd & Ha) & _ & Hin & _).
    assert (P (messages s1)) as HP1 by (rewrite Hd; eapply Hstep; eassumption).
    assert (Forall P (model_inputs t1)) as HF1 by (rewrite Hin; now constructor).
    destruct r1 as [[]|e|]; try (inversion H; subst; now split).
    destruct (while_true fuel (round self functions) s1) as [[r2 s2] t2] eqn:Hw.
    inversion H; subst.
    destruct (IH _ _ _ _ Hw HP1) as [HP2 HF2].
    split; [assumption|].
    clear - HF1 HF2 Hin. revert HF1. generalize t1 as u. clear Hin.
    induction u as [|ev u IHu]; simpl; intro HF1; [assumption|].
    destruct ev; simpl in *; auto.
    inversion HF1; subst. constructor; auto.
Qed.

Lemma model_inputs_app :
  forall t1 t2 : trace, model_inputs (t1 ++ t2) = model_inputs t1 ++ model_inputs t2.
Proof.
  induction t1 as [|ev t1 IH]; intro t2; simpl; [reflexivity|].
  destruct ev; simpl; now rewrite IH.
Qed.

Lemma while_true_tools :
  forall self functions fuel st r st' t,
    while_true fuel (round self functions) st = (r, st', t) ->
    forall model input tools tool_choice,
      In (EvCreate model input tools tool_choice) t -> tools = functions.
Proof.
  intros self functions. induction fuel as [|fuel IH]; intros st r st' t H; simpl in H.
  - inversion H; subst. intros ? ? ? ? [].
  - destruct (round self functions st) as [[r1 s1] t1] eqn:Hr.
    destruct (round_effect _ _ _ Hr) as (_ & _ & _ & Ht1).
    destruct r1 as [[]|e|]; try (inversion H; subst; exact Ht1).
    destruct (while_true fuel (round self functions) s1) as [[r2 s2] t2] eqn:Hw.
    inversion H; subst.
    intros model input tools tool_choice Hin.
    apply in_app_or in Hin. destruct Hin as [Hin|Hin].
    + eapply Ht1; eassumption.
    + eapply IH; eassumption.
Qed.

(** *** Prefixes *)

Lemma prefix_refl : forall A (l : list A), prefix l l.
Proof. intros A l. exists []. now rewrite app_nil_r. Qed.

Lemma prefix_app : forall A (l d : list A), prefix l (l ++ d).
Proof. intros A l d. now exists d. Qed.

Lemma prefix_trans :
  forall A (a b c : list A), prefix a b -> prefix b c -> prefix a c.
Proof.
  intros A a b c [d1 ->] [d2 ->]. exists (d1 ++ d2). now rewrite app_assoc.
Qed.

Lemma append_only_head :
  forall A (a b : list A) l,
    prefix a b -> append_only (b :: l) -> append_only (a :: l).
Proof.
  intros A a b [|c l] Hab H; simpl in *; [exact I|].
  destruct H as [Hbc H]. split; [eapply prefix_trans; eassumption | assumption].
Qed.

Lemma while_true_append_only :
  forall self functions fuel st r st' t,
    while_true fuel (round self functions) st = (r, st', t) ->
    append_only (messages st :: model_inputs t ++ [messages st']).
Proof.
  intros self functions. induction fuel as [|fuel IH]; intros st r st' t H; simpl in H.
  - inversion H; subst. simpl. split; [apply prefix_refl | exact I].
  - destruct (round self functions st) as [[r1 s1] t1] eqn:Hr.
    destruct (round_effect _ _ _ Hr) as ((delta & Hd & _) & _ & Hin & _).
    assert (prefix (messages st) (messages s1)) as Hp by (rewrite Hd; apply prefix_app).
    destruct r1 as [[]|e|];
      try (inversion H; subst; rewrite Hin; simpl;
           split; [apply prefix_refl | split; [assumption | exact I]]).
    destruct (while_true fuel (round self functions) s1) as [[r2 s2] t2] eqn:Hw.
    inversion H; subst.
    rewrite model_inputs_app, Hin. simpl app.
    split; [apply prefix_refl|].
    eapply append_only_head; [exact Hp | exact (IH _ _ _ _ Hw)].
Qed.

(** C3. The functions built from the enumerated tools are as many as the
    tools and in the same order: the function at each position carries the
    name, the description and the input schema of the tool at that position,
    unchanged.  That list is the one every model call of the query is given. *)
Theorem functions_preserve_tool_descriptors :
  forall fuel self sess query w tools w0,
    session self = Some sess ->
    list_tools sess w = (Returns tools, w0) ->
    let functions := functions_of tools in
    List.length functions = List.length tools
    /\ (forall i tool,
          nth_error tools i = Some tool ->
          exists f,
            nth_error functions i = Some f
            /\ fn_name f = name tool
            /\ fn_description f = description tool
            /\ fn_parameters f = inputSchema tool)
    /\ (forall model input passed tool_choice,
          In (EvCreate model input passed tool_choice)
             (snd (process_query fuel self query w)) ->
          passed = functions).
Proof.
  intros fuel self sess query w tools w0 Hs Hl functions. subst functions.
  rewrite functions_of_map. split; [apply length_map | split].
  - intros i tool Hi. exists (function_for tool).
    split; [now apply map_nth_error | now repeat split].
  - rewrite <- functions_of_map.
    pose proof (process_query_shape fuel self query w) as Hshape.
    inversion Hshape as [e Hn | sess' e w' Hs' Hl' | sess' tools' w' r r' st t Hs' Hl' Hw];
      try congruence.
    rewrite Hs in Hs'. inversion Hs'; subst sess'.
    rewrite Hl in Hl'. inversion Hl'; subst tools' w'.
    simpl. intros model input passed tool_choice [Hin|Hin]; [discriminate|].
    eapply while_true_tools; eassumption.
Qed.

(** *** Back-references *)

Lemma back_references_initial :
  forall query, back_references_ok [system_message; user_message query].
Proof.
  intros query i m Hi Hrole.
  destruct i as [|[|i]]; simpl in Hi.
  - inversion Hi; subst. discriminate.
  - inversion Hi; subst. discriminate.
  - destruct i; discriminate.
Qed.

Lemma back_references_appended :
  forall ms r delta,
    back_references_ok ms -> appended r delta -> back_references_ok (ms ++ delta).
Proof.
  intros ms r delta Hok Ha i m Hi Hrole.
  destruct (Nat.lt_ge_cases i (List.length ms)) as [Hlt|Hge].
  - rewrite nth_error_app1 in Hi by assumption.
    destruct (Hok i m Hi Hrole) as (j & a & c & Hj & Hnj & Hra & Hin & Hid).
    exists j, a, c. repeat split; try assumption.
    rewrite nth_error_app1 by lia. assumption.
  - rewrite nth_error_app2 in Hi by assumption.
    destruct Ha as [r _ | e call_id name arguments | call_id name arguments text].
    + destruct (i - List.length ms); discriminate.
    + destruct (i - List.length ms) as [|[|n]] eqn:Hn; simpl in Hi; try discriminate.
      inversion Hi; subst. discriminate.
    + destruct (i - List.length ms) as [|[|n]] eqn:Hn; simpl in Hi.
      * inversion Hi; subst. discriminate.
      * inversion Hi; subst m.
        exists (List.length ms), (assistant_message call_id name arguments), call_id.
        repeat split.
        -- lia.
        -- rewrite nth_error_app2 by lia. now rewrite Nat.sub_diag.
        -- simpl. now left.
      * destruct n; discriminate.
Qed.

(** C5. In the message sequence [process_query] ends with, and in every
    sequence it hands to the model on the way, each tool-role message
    carries the call identifier of a request recorded in an assistant-role
    message at a strictly smaller position. *)
Theorem process_query_back_references :
  forall fuel self query w,
    let '(_, st, t) := process_query fuel self query w in
    back_references_ok (messages st) /\ Forall back_references_ok (model_inputs t).
Proof.
  intros fuel self query w.
  destruct (process_query_shape fuel self query w)
    as [e Hn | sess e w0 Hs Hl | sess tools w0 r r' st t Hs Hl Hw].
  - split; [apply back_references_initial | constructor].
  - split; [apply back_references_initial | constructor].
  - simpl model_inputs.
    eapply while_true_messages_invariant;
      [exact back_references_appended | exact Hw | apply back_references_initial].
Qed.

(** *** The priming message *)

Lemma primed_once_initial :
  forall query, primed_once query [system_message; user_message query].
Proof. intro query. exists []. split; [reflexivity | constructor]. Qed.

Lemma primed_once_appended :
  forall query ms r delta,
    primed_once query ms -> appended r delta -> primed_once query (ms ++ delta).
Proof.
  intros query ms r delta (rest & -> & Hrest) Ha.
  exists (rest ++ delta). split; [reflexivity|].
  apply Forall_app. split; [assumption|].
  destruct Ha; repeat constructor.
Qed.

Lemma append_only_tail :
  forall A (a : list A) l, append_only (a :: l) -> append_only l.
Proof. intros A a [|b l] H; simpl in *; [exact I | tauto]. Qed.

(** C6. Take the message sequences [process_query] hands to the model,
    in the order of the calls, followed by the sequence it ends with.  Each
    one extends the one before it, so no message is ever changed or removed
    once appended; and each one, the input of the first model call
    included, starts with the system priming message followed by the query
    and holds no other system-role message. *)
Theorem process_query_conversation_append_only :
  forall fuel self query w,
    let '(_, st, t) := process_query fuel self query w in
    let snapshots := model_inputs t ++ [messages st] in
    append_only snapshots /\ Forall (primed_once query) snapshots.
Proof.
  intros fuel self query w.
  destruct (process_query_shape fuel self query w)
    as [e Hn | sess e w0 Hs Hl | sess tools w0 r r' st t Hs Hl Hw]; simpl.
  - split; [exact I | repeat constructor; apply primed_once_initial].
  - split; [exact I | repeat constructor; apply primed_once_initial].
  - split.
    + exact (append_only_tail _ _ (while_true_append_only _ _ _ _ Hw)).
    + assert (primed_once query (messages st)
              /\ Forall (primed_once query) (model_inputs t)) as [Hlast Hall].
      { eapply while_true_messages_invariant;
          [exact (@primed_once_appended query) | exact Hw | apply primed_once_initial]. }
      apply Forall_app. split; [assumption | now constructor].
Qed.

(** *** The prompt loop *)

Lemma chat_body_on_line :
  forall query_fuel self w line w0,
    input prompt w = (Returns line, w0) ->
    chat_body query_fuel self w
    = if PyStr.lower (PyStr.strip line) =? "quit"
      then (Ok Break, w0, [EvInput prompt])
      else query_served query_fuel self (PyStr.strip line) w0.
Proof.
  intros query_fuel self w line w0 Hin.
  unfold chat_body, try_except, chat_try.
  unfold bind at 1. unfold call at 1. simpl get_world. rewrite Hin. simpl set_world.
  destruct (PyStr.lower (PyStr.strip line) =? "quit"); [reflexivity|].
  unfold query_served, bind, await_process_query, chat_except, print, ret.
  destruct (process_query query_fuel self (PyStr.strip line) w0) as [[[response|e|] st] t];
    simpl; rewrite ?app_nil_r; reflexivity.
Qed.

Lemma chat_body_prompts_first :
  forall query_fuel self w,
    exists t, snd (chat_body query_fuel self w) = EvInput prompt :: t.
Proof.
  intros query_fuel self w.
  destruct (input prompt w) as [[line|e] w0] eqn:Hin.
  - rewrite (chat_body_on_line _ _ _ Hin).
    destruct (PyStr.lower (PyStr.strip line) =? "quit"); [now eexists|].
    unfold query_served.
    destruct (process_query query_fuel self (PyStr.strip line) w0) as [[[response|e|] st] t];
      try destruct (is_Exception e); now eexists.
  - unfold chat_body, try_except, chat_try.
    unfold bind at 1. unfold call at 1. simpl get_world. rewrite Hin.
    destruct (is_Exception e); simpl; now eexists.
Qed.

Lemma prompt_loop_prompts_first :
  forall query_fuel fuel self w,
    exists t, snd (prompt_loop query_fuel (S fuel) self w) = EvInput prompt :: t.
Proof.
  intros query_fuel fuel self w. unfold prompt_loop. simpl.
  destruct (chat_body_prompts_first query_fuel self w) as [t Ht].
  destruct (chat_body query_fuel self w) as [[[[]|e|] w1] t1]; simpl in Ht; subst t1;
    try (now eexists).
  destruct (while_true fuel (chat_body query_fuel self) w1) as [[r2 w2] t2].
  simpl. now eexists.
Qed.

(** C7. When [process_query] raises an error (an [Exception]) on the
    query read at the prompt, the prompt loop prints it and goes on: the
    loop is exactly the print of the error followed by the rest of the loop,
    run in the world the failed query left, and that rest starts by
    prompting for the next query.  Nothing else happens in between: the
    session is not closed and the loop does not end. *)
Theorem prompt_loop_survives_query_error :
  forall query_fuel self w line w0 e st t,
    input prompt w = (Returns line, w0) ->
    PyStr.lower (PyStr.strip line) <> "quit" ->
    process_query query_fuel self (PyStr.strip line) w0 = (Raise e, st, t) ->
    is_Exception e = true ->
    forall fuel,
      prompt_loop query_fuel (S fuel) self w
      = (let '(r, w2, t2) := prompt_loop query_fuel fuel self (world st) in
         (r, w2,
          (EvInput prompt :: t ++ [EvPrint (PyStr.nl ++ "Error: " ++ str_exn e)]) ++ t2))
      /\ exists t3,
          snd (prompt_loop query_fuel (S fuel) self (world st)) = EvInput prompt :: t3.
Proof.
  intros query_fuel self w line w0 e st t Hin Hq Hp He fuel.
  split; [|apply prompt_loop_prompts_first].
  unfold prompt_loop. simpl while_true.
  rewrite (chat_body_on_line _ _ _ Hin).
  apply String.eqb_neq in Hq. rewrite Hq.
  unfold query_served. rewrite Hp, He. reflexivity.
Qed.

(** *** quit, in any letter case *)

Ltac by_byte c H :=
  destruct c as [[] [] [] [] [] [] [] []]; vm_compute in H; try discriminate H; auto.

Lemma lower_byte_q :
  forall c, PyStr.lower_byte c = "q"%char -> c = "q"%char \/ c = "Q"%char.
Proof. intros c H. by_byte c H. Qed.

Lemma lower_byte_u :
  forall c, PyStr.lower_byte c = "u"%char -> c = "u"%char \/ c = "U"%char.
Proof. intros c H. by_byte c H. Qed.

Lemma lower_byte_i :
  forall c, PyStr.lower_byte c = "i"%char -> c = "i"%char \/ c = "I"%char.
Proof. intros c H. by_byte c H. Qed.

Lemma lower_byte_t :
  forall c, PyStr.lower_byte c = "t"%char -> c = "t"%char \/ c = "T"%char.
Proof. intros c H. by_byte c H. Qed.

Lemma lower_quit_spelling :
  forall s, PyStr.lower s = "quit" -> quit_any_case s = true.
Proof.
  intros s H.
  destruct s as [|c1 [|c2 [|c3 [|c4 [|c5 s]]]]]; try discriminate H.
  unfold PyStr.lower, PyStr.bytes, PyStr.of_bytes in H. simpl in H.
  injection H as H1 H2 H3 H4.
  destruct (lower_byte_q _ H1), (lower_byte_u _ H2),
           (lower_byte_i _ H3), (lower_byte_t _ H4); subst; reflexivity.
Qed.

Lemma quit_spelling_fixed :
  forall s,
    quit_any_case s = true -> PyStr.strip s = s /\ PyStr.lower s = "quit".
Proof.
  intros s H. unfold quit_any_case in H.
  apply existsb_exists in H. destruct H as (x & Hx & He).
  apply String.eqb_eq in He. subst x.
  repeat (destruct Hx as [<-|Hx]; [split; reflexivity|]).
  destruct Hx.
Qed.

Lemma lower_quit_iff :
  forall s, (PyStr.lower s =? "quit") = quit_any_case s.
Proof.
  intro s. destruct (quit_any_case s) eqn:Hq.
  - apply String.eqb_eq. now apply quit_spelling_fixed.
  - apply String.eqb_neq. intro H. apply lower_quit_spelling in H. congruence.
Qed.

(** C9 (amended).  When the line read at the prompt is [quit] in any
    letter case, and more generally when it is so once stripped of leading
    and trailing whitespace, the prompt loop ends having made no call but the
    read: no model call, no tool call.  Every other line is served as a
    query, stripped: [process_query] runs on it and its answer or its error
    is printed. *)
Theorem prompt_loop_quit_or_query :
  forall query_fuel self w line w0,
    input prompt w = (Returns line, w0) ->
    (quit_any_case line = true ->
     forall fuel,
       prompt_loop query_fuel (S fuel) self w = (Ok tt, w0, [EvInput prompt]))
    /\ (quit_any_case (PyStr.strip line) = true ->
        forall fuel,
          prompt_loop query_fuel (S fuel) self w = (Ok tt, w0, [EvInput prompt]))
    /\ (quit_any_case (PyStr.strip line) = false ->
        chat_body query_fuel self w
        = query_served query_fuel self (PyStr.strip line) w0).
Proof.
  intros query_fuel self w line w0 Hin.
  pose proof (chat_body_on_line query_fuel self _ Hin) as Hb.
  rewrite lower_quit_iff in Hb.
  assert (quit_any_case (PyStr.strip line) = true ->
          forall fuel,
            prompt_loop query_fuel (S fuel) self w = (Ok tt, w0, [EvInput prompt])) as Hquit.
  { intros Hq fuel. unfold prompt_loop. simpl. now rewrite Hb, Hq. }
  split; [|split].
  - intro H. apply Hquit. destruct (quit_spelling_fixed _ H) as [-> _]. assumption.
  - exact Hquit.
  - intro Hq. now rewrite Hb, Hq.
Qed.

(** *** connect_to_server *)

Lemma bind_call_first :
  forall S (HS : HasWorld S) A B ev (op : World -> reply A * World) (k : A -> M S B) s,
    exists r s' t, bind (call ev op) k s = (r, s', ev :: t).
Proof.
  intros S HS A B ev op k s. unfold bind, call.
  destruct (op (get_world s)) as [[a|e] w1].
  - destruct (k a (set_world w1 s)) as [[r s2] t2]. simpl. now eexists _, _, _.
  - now eexists _, _, _.
Qed.

Lemma connect_to_server_supported :
  forall path s,
    supported_kind path = true ->
    exists r s' t,
      connect_to_server path s = (r, s', EvStdioClient (server_params_for path) :: t).
Proof.
  intros path s H. unfold connect_to_server. fold (supported_kind path). rewrite H.
  simpl negb. cbv iota. fold (server_params_for path).
  apply bind_call_first.
Qed.

Ltac same_reply :=
  repeat match goal with
         | H : exists _, _ |- _ => destruct H
         | H : _ /\ _ |- _ => destruct H
         | H : _ \/ _ |- _ => destruct H
         | H : (_, _) = (_, _) |- _ => inversion H; subst; clear H
         | H1 : ?x = _, H2 : ?x = _ |- _ => rewrite H1 in H2
         end.

Ltac by_replies :=
  repeat eexists;
  repeat (split; [first [eassumption | reflexivity]|]);
  first [eassumption | reflexivity].

Lemma connect_to_server_raises_iff :
  forall path s e,
    supported_kind path = true ->
    (exists s' t, connect_to_server path s = (Raise e, s', t))
    <-> raised_while_connecting path s e.
Proof.
  intros path s e Hk. unfold raised_while_connecting. cbv zeta.
  unfold connect_to_server. fold (supported_kind path). rewrite Hk.
  simpl negb. cbv iota. fold (server_params_for path).
  unfold bind, call, assign_self, modify. simpl.
  destruct (stdio_client (server_params_for path) (world_of s)) as [[tr|e1] w1] eqn:H1; simpl.
  - destruct (ClientSession tr w1) as [[sess|e2] w2] eqn:H2; simpl.
    + destruct (initialize sess w2) as [[u|e3] w3] eqn:H3; simpl.
      * destruct (list_tools sess w3) as [[tools|e4] w4] eqn:H4; simpl.
        -- split; intro H; [destruct H as (s' & t & H); discriminate H | same_reply].
        -- split; intro H.
           ++ destruct H as (s' & t & H). inversion H; subst.
              right. right. right. by_replies.
           ++ same_reply. now eexists _, _.
      * split; intro H.
        -- destruct H as (s' & t & H). inversion H; subst.
           right. right. left. by_replies.
        -- same_reply. now eexists _, _.
    + split; intro H.
      * destruct H as (s' & t & H). inversion H; subst.
        right. left. by_replies.
      * same_reply. now eexists _, _.
  - split; intro H.
    + destruct H as (s' & t & H). inversion H; subst. left. by_replies.
    + same_reply. now eexists _, _.
Qed.

(** C8 (amended).  [connect_to_server] raises before it has made any
    call (no transport opened, no handshake) exactly when the identifier
    ends with neither [.py] nor [.js]; the error is then the [ValueError] of
    the check and the client is left as it was.  For a supported identifier
    the first thing it does is open the transport, and the errors it raises
    are exactly those a collaborator raised: the transport, the entry of the
    session, the handshake or the enumeration of the tools. *)
Theorem connect_to_server_rejects_unsupported_first :
  forall path s,
    ((exists e s', connect_to_server path s = (Raise e, s', []))
     <-> supported_kind path = false)
    /\ (supported_kind path = false ->
        connect_to_server path s
        = (Raise (ValueError "Server script must be a .py or .js file"), s, []))
    /\ (supported_kind path = true ->
        exists r s' t,
          connect_to_server path s
          = (r, s', EvStdioClient (server_params_for path) :: t))
    /\ (supported_kind path = true ->
        forall e,
          (exists s' t, connect_to_server path s = (Raise e, s', t))
          <-> raised_while_connecting path s e).
Proof.
  intros path s.
  assert (supported_kind path = false ->
          connect_to_server path s
          = (Raise (ValueError "Server script must be a .py or .js file"), s, [])) as Hno.
  { intro H. unfold connect_to_server. fold (supported_kind path). now rewrite H. }
  split; [split|split; [|split]].
  - intros (e & s' & H). destruct (supported_kind path) eqn:Hk; [|reflexivity].
    destruct (connect_to_server_supported path s Hk) as (r & s1 & t & Ht).
    rewrite Ht in H. discriminate H.
  - intro H. eexists _, _. now apply Hno.
  - exact Hno.
  - now apply connect_to_server_supported.
  - intros Hk e. now apply connect_to_server_raises_iff.
Qed.

End Proofs.

(** * Concrete runs *)

Section Runs.

Import Scripted.

(** The weather conversation: the second round's plain message is the
    answer, and the messages are those of the tool round. *)
Lemma process_query_returns_first_plain_message_run :
  loop_head connected weather_query weather_world (functions_of [get_weather])
            1 weather_after_tool weather_tool_round
  /\ fst (process_query 2 connected weather_query weather_world)
     = (Ok weather_answer,
        {| messages := messages weather_after_tool;
           final_text := [weather_answer];
           world := weather_end |}).
Proof.
  assert (loop_head connected weather_query weather_world (functions_of [get_weather])
                    1 weather_after_tool weather_tool_round) as Hh.
  { exists tt, [get_weather], weather_world. repeat split. }
  split; [exact Hh|].
  erewrite (process_query_returns_first_plain_message (fuel := 2) Hh);
    [reflexivity | reflexivity | lia].
Defined.

(** The function built for [get_weather] is passed to the model. *)
Lemma functions_preserve_tool_descriptors_run :
  List.length (functions_of [get_weather]) = 1
  /\ forall model input passed tool_choice,
       In (EvCreate model input passed tool_choice)
          (snd (process_query 2 connected weather_query weather_world)) ->
       passed = functions_of [get_weather].
Proof.
  pose proof (@functions_preserve_tool_descriptors
                collaborators 2 connected tt weather_query weather_world
                [get_weather] weather_world eq_refl eq_refl) as (Hlen & _ & Hpassed).
  split; [exact Hlen | exact Hpassed].
Defined.

(** A model that answers with a reasoning item. *)
Lemma process_query_raises_on_unexpected_output_run :
  fst (process_query 1 connected "think" reasoning_world)
  = (Raise (RuntimeError "Unexpected output type: reasoning"),
     {| messages := [system_message; user_message "think"];
        final_text := [];
        world := {| launchable := true; provider_tools := [get_weather];
                    model_script := []; tool_script := [];
                    input_script := ["think"; "quit"] |} |}).
Proof.
  assert (loop_head connected "think" reasoning_world (functions_of [get_weather])
                    0 (initial_locals "think" reasoning_world) []) as Hh.
  { exists tt, [get_weather], reasoning_world. repeat split. }
  erewrite (process_query_raises_on_unexpected_output (fuel := 1) Hh); cycle 1.
  - reflexivity.
  - discriminate.
  - discriminate.
  - lia.
  - reflexivity.
Defined.

(** A model whose call carries arguments that do not decode. *)
Lemma process_query_decode_error_after_append_run :
  fst (process_query 1 connected "weather?" malformed_world)
  = (Raise (JSONDecodeError "Expecting value: line 1 column 1 (char 0)"),
     {| messages := [system_message; user_message "weather?";
                     assistant_message "call_9" "get_weather" "city=Boston"];
        final_text := [];
        world := {| launchable := true; provider_tools := [get_weather];
                    model_script := []; tool_script := [];
                    input_script := [] |} |}).
Proof.
  assert (loop_head connected "weather?" malformed_world (functions_of [get_weather])
                    0 (initial_locals "weather?" malformed_world) []) as Hh.
  { exists tt, [get_weather], malformed_world. repeat split. }
  erewrite (process_query_decode_error_after_append (fuel := 1) Hh); cycle 1.
  - reflexivity.
  - reflexivity.
  - lia.
  - reflexivity.
Defined.

(** The query [think] fails, the error is printed, and the loop reads
    the next line, [quit], and ends normally. *)
Lemma prompt_loop_survives_query_error_run :
  fst (prompt_loop 1 2 connected reasoning_world)
  = (Ok tt, {| launchable := true; provider_tools := [get_weather];
               model_script := []; tool_script := [];
               input_script := [] |}).
Proof.
  pose proof (@prompt_loop_survives_query_error
                collaborators 1 connected reasoning_world "think"
                (after_first_line reasoning_world)
                (RuntimeError "Unexpected output type: reasoning")) as H.
  specialize (H _ _ eq_refl ltac:(discriminate) eq_refl eq_refl 1).
  destruct H as [H _]. rewrite H. reflexivity.
Defined.

(** [QuIt] ends the loop with the next line unread. *)
Lemma prompt_loop_quit_or_query_run :
  prompt_loop 1 1 connected mixed_case_quit_world
  = (Ok tt, after_first_line mixed_case_quit_world, [EvInput prompt]).
Proof.
  apply (proj1 (@prompt_loop_quit_or_query
                  collaborators 1 connected mixed_case_quit_world
                  "QuIt" (after_first_line mixed_case_quit_world) eq_refl)).
  reflexivity.
Defined.

(** A [.py] script whose process cannot be started: the identifier is of
    a supported kind and [connect_to_server] raises all the same, after it
    has tried to open the transport. *)
Lemma supported_script_still_raises :
  supported_kind "server.py" = true
  /\ connect_to_server "server.py"
       {| self_of := init_client; world_of := missing_server_world |}
     = (Raise (OtherException "[Errno 2] No such file or directory"),
        {| self_of := init_client; world_of := missing_server_world |},
        [EvStdioClient (server_params_for "server.py")]).
Proof. split; reflexivity. Qed.

(** The line [quit] followed by a space is not [quit] in any letter
    case, yet the loop ends on it: the line is not processed as a query and
    the next line is never read. *)
Lemma padded_quit_ends_loop :
  quit_any_case "quit " = false
  /\ chat_loop 1 2 connected padded_quit_world
     = (Ok tt, after_first_line padded_quit_world,
        [EvPrint (PyStr.nl ++ "MCP Client Started!");
         EvPrint "Type your queries or 'quit' to exit.";
         EvInput prompt]).
Proof. split; reflexivity. Qed.

End Runs.

(** * Further properties of [process_query] *)

Section QueryProofs.

Context {C : Collaborators}.

Lemma rounds_snoc :
  forall S (body : M S control) k s s1 t1 s2 t2,
    rounds k body s = Some (s1, t1) ->
    body s1 = (Ok Continue, s2, t2) ->
    rounds (Datatypes.S k) body s = Some (s2, t1 ++ t2).
Proof.
  intros S body k. induction k as [|k IH]; intros s s1 t1 s2 t2 Hr Hb.
  - simpl in Hr. inversion Hr; subst. simpl. rewrite Hb. simpl. now rewrite app_nil_r.
  - simpl in Hr.
    destruct (body s) as [[[[]|e|] s'] t'] eqn:Hs; try discriminate.
    destruct (rounds k body s') as [[s3 t3]|] eqn:Hk; try discriminate.
    inversion Hr; subst.
    change (rounds (Datatypes.S (Datatypes.S k)) body s)
      with (match body s with
            | (Ok Continue, sa, ta) =>
                match rounds (Datatypes.S k) body sa with
                | Some (sb, tb) => Some (sb, ta ++ tb)
                | None => None
                end
            | _ => None
            end).
    rewrite Hs, (IH _ _ _ _ _ Hk Hb). now rewrite app_assoc.
Qed.

(** The calls and the appends of a round, by the way it ends. *)
Lemma round_calls :
  forall self functions st r st' t,
    round self functions st = (r, st', t) ->
    match r with
    | Ok Break => t = [model_call functions st] /\ messages st' = messages st
    | Ok Continue =>
        exists x name tool_args,
          t = [model_call functions st; EvCallTool name tool_args]
          /\ messages st' = messages st ++ exchange_messages x
    | Raise e =>
        (t = [model_call functions st]
         /\ (messages st' = messages st
             \/ exists call_id name arguments,
                 messages st' = messages st ++ [assistant_message call_id name arguments]))
        \/ (exists name tool_args call_id arguments,
               t = [model_call functions st; EvCallTool name tool_args]
               /\ messages st' = messages st ++ [assistant_message call_id name arguments])
    | OutOfFuel => False
    end.
Proof.
  intros self functions st r st' t H.
  unfold round, loads, the_session, index0, get_content, get_text, get_call in H.
  unfold bind, ret, raise, gets, modify, call, final_text_append, messages_append in H.
  simpl in H. unfold model_call.
  repeat match type of H with
         | context [match ?x with _ => _ end] =>
             lazymatch x with
             | context [match _ with _ => _ end] => fail
             | _ => destruct x eqn:?; simpl in H
             end
         end;
    inversion H; subst; clear H; simpl;
    try (split; reflexivity);
    try (left; split; [reflexivity | left; reflexivity]);
    try (left; split; [reflexivity | right; now eexists _, _, _]);
    try (right; now eexists _, _, _, _).
  eexists (_, _, _, _), _, _. split; [reflexivity|].
  simpl. now rewrite <- app_assoc.
Qed.

Lemma process_query_round_raises :
  forall self query w functions k st t e st' t' fuel,
    loop_head self query w functions k st t ->
    round self functions st = (Raise e, st', t') ->
    k < fuel ->
    process_query fuel self query w = (Raise e, st', EvListTools :: t ++ t').
Proof.
  intros self query w functions k st t e st' t' fuel Hh Hr Hk.
  replace fuel with (k + S (fuel - S k)) by lia.
  rewrite (process_query_from_head _ Hh).
  simpl while_true. now rewrite Hr.
Qed.

(** *** Errors before the loop *)

(** X1. Called on a client that has no session, [process_query] raises
    an [AttributeError] at once: no collaborator is called, and the messages
    are the two it started from. *)
Theorem process_query_without_session :
  forall fuel self query w,
    session self = None ->
    process_query fuel self query w
    = (Raise (AttributeError "'NoneType' object has no attribute 'list_tools'"),
       initial_locals query w, []).
Proof.
  intros fuel self query w Hs. unfold process_query, the_session. rewrite Hs. reflexivity.
Qed.

(** X2. When the enumeration of the tools raises, [process_query] raises
    the same error: the model is never called, and nothing was appended to
    the messages. *)
Theorem process_query_enumeration_error :
  forall fuel self sess query w e w0,
    session self = Some sess ->
    list_tools sess w = (Raises e, w0) ->
    process_query fuel self query w
    = (Raise e,
       {| messages := [system_message; user_message query]; final_text := []; world := w0 |},
       [EvListTools]).
Proof.
  intros fuel self sess query w e w0 Hs Hl.
  unfold process_query, the_session. rewrite Hs.
  unfold bind at 1. unfold ret at 1.
  unfold bind at 1. unfold call at 1. simpl get_world. rewrite Hl. reflexivity.
Qed.

(** *** Errors in a round *)

(** X3. When the model call itself raises, [process_query] raises the
    same error with the messages as they were at the head of the loop: the
    call is not tried again. *)
Theorem process_query_model_error :
  forall self query w functions k st t e w1 fuel,
    loop_head self query w functions k st t ->
    model_reply functions st = (Raises e, w1) ->
    k < fuel ->
    process_query fuel self query w
    = (Raise e, with_world st w1, EvListTools :: t ++ [model_call functions st]).
Proof.
  intros self query w functions k st t e w1 fuel Hh Hm Hk.
  apply (process_query_round_raises Hh); [|assumption].
  unfold model_reply in Hm. unfold round, model_call, with_world.
  unfold bind, gets, call. simpl. rewrite Hm. reflexivity.
Qed.

(** X4. When the response holds no output item, or when its first item is
    a message without any content part, [process_query] raises an
    [IndexError], with the messages as they were at the head of the loop. *)
Theorem process_query_index_error :
  forall self query w functions k st t resp w1 fuel,
    loop_head self query w functions k st t ->
    model_reply functions st = (Returns resp, w1) ->
    (output resp = [] \/ exists items, output resp = OutputMessage [] :: items) ->
    k < fuel ->
    process_query fuel self query w
    = (Raise (IndexError "list index out of range"),
       with_world st w1, EvListTools :: t ++ [model_call functions st]).
Proof.
  intros self query w functions k st t resp w1 fuel Hh Hm Ho Hk.
  apply (process_query_round_raises Hh); [|assumption].
  unfold model_reply in Hm. unfold round, model_call, with_world.
  unfold bind, gets, call. simpl. rewrite Hm. simpl.
  destruct Ho as [Ho|[items Ho]]; rewrite Ho; reflexivity.
Qed.

(** X5. When the first content part of a plain message is a refusal,
    which has no text, [process_query] raises an [AttributeError] instead of
    returning an answer; the messages are as they were at the head of the
    loop. *)
Theorem process_query_refusal_error :
  forall self query w functions k st t refusal parts items w1 fuel,
    loop_head self query w functions k st t ->
    model_reply functions st
    = (Returns {| output := OutputMessage (OutputRefusal refusal :: parts) :: items |}, w1) ->
    k < fuel ->
    process_query fuel self query w
    = (Raise (AttributeError "'ResponseOutputRefusal' object has no attribute 'text'"),
       with_world st w1, EvListTools :: t ++ [model_call functions st]).
Proof.
  intros self query w functions k st t refusal parts items w1 fuel Hh Hm Hk.
  apply (process_query_round_raises Hh); [|assumption].
  unfold model_reply in Hm. unfold round, model_call, with_world.
  unfold bind, gets, call. simpl. rewrite Hm. reflexivity.
Qed.

(** X6. When the tool call raises, [process_query] raises the same error
    after the one call to the tool: the assistant message that records the
    request is the last message, and no tool message answers it. *)
Theorem process_query_tool_error :
  forall self sess query w functions k st t call_id name arguments items w1
         tool_args e w2 fuel,
    loop_head self query w functions k st t ->
    model_reply functions st
    = (Returns {| output := FunctionCall call_id name arguments :: items |}, w1) ->
    json_loads arguments = Returns tool_args ->
    session self = Some sess ->
    call_tool sess name tool_args w1 = (Raises e, w2) ->
    k < fuel ->
    process_query fuel self query w
    = (Raise e,
       {| messages := messages st ++ [assistant_message call_id name arguments];
          final_text := final_text st;
          world := w2 |},
       EvListTools :: t ++ [model_call functions st; EvCallTool name tool_args]).
Proof.
  intros self sess query w functions k st t call_id name arguments items w1
         tool_args e w2 fuel Hh Hm Hj Hs Hc Hk.
  apply (process_query_round_raises Hh); [|assumption].
  unfold model_reply in Hm. unfold round, model_call, loads, the_session.
  unfold bind, gets, call, ret, modify, messages_append. simpl.
  rewrite Hm. simpl. rewrite Hj, Hs. simpl. rewrite Hc. reflexivity.
Qed.

(** *** Rounds that go on *)

(** X7. A tool round that succeeds leads to the head of the loop again:
    the messages have grown by the assistant message of the request and the
    tool message that answers it, whose content is the text of the result,
    and the calls by the model call and the one tool call, made with the
    name the model gave and the decoded arguments. *)
Theorem tool_round_reaches_next_head :
  forall self sess query w functions k st t call_id name arguments items w1
         tool_args result w2,
    loop_head self query w functions k st t ->
    model_reply functions st
    = (Returns {| output := FunctionCall call_id name arguments :: items |}, w1) ->
    json_loads arguments = Returns tool_args ->
    session self = Some sess ->
    call_tool sess name tool_args w1 = (Returns result, w2) ->
    loop_head self query w functions (S k)
      {| messages := messages st
                     ++ [assistant_message call_id name arguments;
                         tool_output_message call_id
                           (tool_result_text (result_content result))];
         final_text := [];
         world := w2 |}
      (t ++ [model_call functions st; EvCallTool name tool_args]).
Proof.
  intros self sess query w functions k st t call_id name arguments items w1
         tool_args result w2 Hh Hm Hj Hs Hc.
  pose proof (round_tool_exchange _ _ _ Hm Hj Hs Hc) as Hr.
  rewrite (loop_head_final_text Hh) in Hr.
  destruct Hh as (sess' & tools & w0 & Hs' & Hl & Hf & Hk).
  exists sess', tools, w0. repeat split; try assumption.
  exact (rounds_snoc _ _ _ Hk Hr).
Qed.

(** X8. At the head of the loop after [k] rounds the conversation is the
    system message, the query, and [k] pairs of an assistant message and the
    tool message that answers it; [k] model calls and [k] tool calls were
    made to get there. *)
Theorem loop_head_conversation :
  forall self query w functions k st t,
    loop_head self query w functions k st t ->
    exists exchanges : list exchange,
      List.length exchanges = k
      /\ messages st
         = [system_message; user_message query] ++ flat_map exchange_messages exchanges
      /\ count_model_calls t = k
      /\ count_tool_calls t = k.
Proof.
  intros self query w functions k st t (sess & tools & w0 & _ & _ & _ & Hr).
  assert (forall s s1 t1,
             rounds k (round self functions) s = Some (s1, t1) ->
             exists xs : list exchange,
               List.length xs = k
               /\ messages s1 = messages s ++ flat_map exchange_messages xs
               /\ count_model_calls t1 = k /\ count_tool_calls t1 = k) as Hgen.
  { clear. induction k as [|k IH]; intros s s1 t1 Hr; simpl in Hr.
    - inversion Hr; subst. exists []. simpl. now rewrite app_nil_r.
    - destruct (round self functions s) as [[[[]|e|] s'] t'] eqn:Hs; try discriminate.
      destruct (rounds k (round self functions) s') as [[s2 t2]|] eqn:Hk; try discriminate.
      inversion Hr; subst.
      destruct (IH _ _ _ Hk) as (xs & Hlen & Hms & Hmc & Htc).
      destruct (round_calls _ _ _ Hs) as (x & name & tool_args & Ht & Hx).
      exists (x :: xs). subst t'. simpl.
      repeat split.
      + now rewrite Hlen.
      + rewrite Hms, Hx. now rewrite <- app_assoc.
      + unfold count_model_calls in *. simpl. now rewrite Hmc.
      + now rewrite Htc. }
  destruct (Hgen _ _ _ Hr) as (xs & H1 & H2 & H3 & H4).
  exists xs. auto.
Qed.

Lemma round_starts_with_model_call :
  forall self functions st r st' t,
    round self functions st = (r, st', t) ->
    exists t', t = model_call functions st :: t'.
Proof.
  intros self functions st r st' t H.
  pose proof (round_calls _ _ _ H) as Hc.
  destruct r as [[]|e|].
  - destruct Hc as [-> _]. now eexists.
  - destruct Hc as (x & name & tool_args & -> & _). now eexists.
  - destruct Hc as [[-> _]|(name & tool_args & c & a & -> & _)]; now eexists.
  - destruct Hc.
Qed.

(** X9. The loop has no round limit: however many tool rounds were
    completed, [process_query] calls the model once more, with the messages
    as they are at the head of the loop. *)
Theorem process_query_calls_model_again :
  forall self query w functions k st t fuel,
    loop_head self query w functions k st t ->
    k < fuel ->
    exists r st' t',
      process_query fuel self query w
      = (r, st', EvListTools :: t ++ model_call functions st :: t').
Proof.
  intros self query w functions k st t fuel Hh Hk.
  replace fuel with (k + S (fuel - S k)) by lia.
  rewrite (process_query_from_head _ Hh).
  simpl while_true.
  destruct (round self functions st) as [[r1 s1] t1] eqn:Hr.
  destruct (round_starts_with_model_call _ _ _ Hr) as [t' ->].
  destruct r1 as [[]|e|]; try (now eexists _, _, _).
  destruct (while_true (fuel - S k) (round self functions) s1) as [[[u|e|] s2] t2];
    simpl; now eexists _, _, _.
Qed.

(** *** Counting the calls *)

Lemma count_tool_calls_app :
  forall t1 t2 : trace,
    count_tool_calls (t1 ++ t2) = count_tool_calls t1 + count_tool_calls t2.
Proof.
  induction t1 as [|ev t1 IH]; intro t2; simpl; [reflexivity|].
  destruct ev; simpl; now rewrite IH.
Qed.

Lemma count_model_calls_app :
  forall t1 t2 : trace,
    count_model_calls (t1 ++ t2) = count_model_calls t1 + count_model_calls t2.
Proof.
  intros t1 t2. unfold count_model_calls. now rewrite model_inputs_app, length_app.
Qed.

Lemma exchange_messages_length :
  forall x, List.length (exchange_messages x) = 2.
Proof. intros [[[c n] a] text]. reflexivity. Qed.

Ltac one_call :=
  unfold model_call; constructor; [left; now eexists | constructor].

Ltac two_calls :=
  unfold model_call;
  constructor; [left; now eexists | constructor; [right; now eexists _, _ | constructor]].

Lemma while_true_counts :
  forall self functions fuel st r st' t,
    while_true fuel (round self functions) st = (r, st', t) ->
    Forall (fun ev => (exists ms, ev = EvCreate "gpt-4" ms functions "auto")
                      \/ exists name tool_args, ev = EvCallTool name tool_args) t
    /\ match r with
       | Ok _ =>
           count_model_calls t = count_tool_calls t + 1
           /\ List.length (messages st') = List.length (messages st) + 2 * count_tool_calls t
       | OutOfFuel =>
           count_model_calls t = count_tool_calls t
           /\ List.length (messages st') = List.length (messages st) + 2 * count_tool_calls t
       | Raise _ =>
           count_tool_calls t <= count_model_calls t <= count_tool_calls t + 1
       end.
Proof.
  intros self functions. induction fuel as [|fuel IH]; intros st r st' t H; simpl in H.
  - inversion H; subst. split; [constructor|]. simpl. split; [reflexivity | lia].
  - destruct (round self functions st) as [[r1 s1] t1] eqn:Hr.
    pose proof (round_calls _ _ _ Hr) as Hc.
    destruct r1 as [[]|e|].
    + inversion H; subst. destruct Hc as [-> Hm].
      split; [one_call|].
      unfold count_model_calls, model_call. simpl. rewrite Hm. split; [reflexivity | lia].
    + destruct Hc as (x & name & tool_args & -> & Hm).
      destruct (while_true fuel (round self functions) s1) as [[r2 s2] t2] eqn:Hw.
      inversion H; subst.
      destruct (IH _ _ _ _ Hw) as [Hall Hcount].
      split.
      * unfold model_call.
        constructor; [left; now eexists|].
        constructor; [right; now eexists _, _ | assumption].
      * rewrite Hm, length_app, exchange_messages_length in Hcount.
        unfold count_model_calls in *.
        change (model_inputs (model_call functions st :: EvCallTool name tool_args :: t2))
          with (messages st :: model_inputs t2).
        change (count_tool_calls (model_call functions st :: EvCallTool name tool_args :: t2))
          with (S (count_tool_calls t2)).
        change (List.length (messages st :: model_inputs t2))
          with (S (List.length (model_inputs t2))).
        destruct r; lia.
    + inversion H; subst.
      destruct Hc as [[-> _]|(name & tool_args & c & a & -> & _)].
      * split; [one_call|]. unfold count_model_calls, model_call. simpl. split; lia.
      * split; [two_calls|].
        unfold count_model_calls, model_call. simpl. split; lia.
    + destruct Hc.
Qed.

Lemma process_query_loop :
  forall fuel self sess query w tools w0,
    session self = Some sess ->
    list_tools sess w = (Returns tools, w0) ->
    process_query fuel self query w
    = match while_true fuel (round self (functions_of tools))
                       (set_world w0 (initial_locals query w)) with
      | (Ok _, s2, t2) => (Ok (PyStr.join PyStr.nl (final_text s2)), s2, EvListTools :: t2)
      | (Raise e, s2, t2) => (Raise e, s2, EvListTools :: t2)
      | (OutOfFuel, s2, t2) => (OutOfFuel, s2, EvListTools :: t2)
      end.
Proof.
  intros fuel self sess query w tools w0 Hs Hl.
  assert (loop_head self query w (functions_of tools) 0
                    (set_world w0 (initial_locals query w)) []) as Hh.
  { exists sess, tools, w0. repeat split; assumption. }
  exact (process_query_from_head fuel Hh).
Qed.

(** X10. Whatever happens, [process_query] enumerates the tools at most
    once, first, and after that only calls the model and the tools: it
    never prints, reads or connects.  It makes at most one tool call per model
    call; when it returns an answer, it has made one model call more than
    tool calls, and two messages per tool call were added to the first two. *)
Theorem process_query_calls :
  forall fuel self query w,
    let '(r, st, t) := process_query fuel self query w in
    (t = [] \/ exists t', t = EvListTools :: t' /\ forallb round_event t' = true)
    /\ count_tool_calls t <= count_model_calls t <= count_tool_calls t + 1
    /\ (forall answer,
          r = Ok answer ->
          count_model_calls t = count_tool_calls t + 1
          /\ List.length (messages st) = 2 + 2 * count_tool_calls t).
Proof.
  intros fuel self query w.
  destruct (session self) as [sess|] eqn:Hs.
  - destruct (list_tools sess w) as [[tools|e] w0] eqn:Hl.
    + rewrite (@process_query_loop fuel self sess query w tools w0 Hs Hl).
      destruct (while_true fuel (round self (functions_of tools))
                           (set_world w0 (initial_locals query w)))
        as [[r' st] t] eqn:Hw.
      destruct (while_true_counts _ _ _ _ Hw) as [Hall Hcount].
      assert (forallb round_event t = true) as Hev.
      { apply forallb_forall. intros ev Hin.
        rewrite Forall_forall in Hall.
        destruct (Hall ev Hin) as [[ms ->]|(name & tool_args & ->)]; reflexivity. }
      destruct r' as [u|e|]; simpl in Hcount;
        (split; [right; now eexists | split; [unfold count_model_calls in *; simpl; lia|]]);
        intros answer Ha; inversion Ha; subst.
      unfold count_model_calls in *. simpl. simpl in Hcount. lia.
    + pose proof (process_query_shape fuel self query w) as Hshape.
      inversion Hshape as [e' Hn | sess' e' w' Hs' Hl' | sess' tools' w' r r' st t Hs' Hl' Hw];
        try congruence.
      split; [right; exists []; now split|].
      split; [unfold count_model_calls; simpl; lia | discriminate].
  - pose proof (process_query_shape fuel self query w) as Hshape.
    inversion Hshape as [e' Hn | sess' e' w' Hs' Hl' | sess' tools' w' r r' st t Hs' Hl' Hw];
      try congruence.
    split; [now left | split; [unfold count_model_calls; simpl; lia | discriminate]].
Qed.

(** X11. Every model call of a query asks for the model [gpt-4] with the
    tool choice [auto], and every function it passes is of type [function]
    and not strict. *)
Theorem process_query_standard_calls :
  forall fuel self query w ev,
    In ev (snd (process_query fuel self query w)) -> standard_call ev.
Proof.
  intros fuel self query w ev Hin.
  pose proof (process_query_shape fuel self query w) as Hshape.
  inversion Hshape as [e' Hn | sess' e' w' Hs' Hl' | sess tools w0 r r' st t Hs Hl Hw];
    match goal with Heq : _ = process_query _ _ _ _ |- _ => rewrite <- Heq in Hin end;
    simpl in Hin.
  - destruct Hin.
  - destruct Hin as [<-|[]]. exact I.
  - destruct Hin as [<-|Hin]; [exact I|].
    destruct (while_true_counts _ _ _ _ Hw) as [Hall _].
    rewrite Forall_forall in Hall.
    destruct (Hall ev Hin) as [[ms ->]|(name & tool_args & ->)]; [|exact I].
    simpl. repeat split.
    rewrite functions_of_map. apply Forall_forall.
    intros f Hf. apply in_map_iff in Hf. destruct Hf as (tool & <- & _). now split.
Qed.

End QueryProofs.

(** * Further properties of the prompt loop and of the connection *)

Section SessionProofs.

Context {C : Collaborators}.

(** X12. When [process_query] returns an answer for the line read at the
    prompt, the prompt loop prints a newline and the answer and goes on with
    the next prompt, in the world the query left. *)
Theorem prompt_loop_prints_answer :
  forall query_fuel self w line w0 response st t,
    input prompt w = (Returns line, w0) ->
    PyStr.lower (PyStr.strip line) <> "quit" ->
    process_query query_fuel self (PyStr.strip line) w0 = (Ok response, st, t) ->
    forall fuel,
      prompt_loop query_fuel (S fuel) self w
      = (let '(r, w2, t2) := prompt_loop query_fuel fuel self (world st) in
         (r, w2, (EvInput prompt :: t ++ [EvPrint (PyStr.nl ++ response)]) ++ t2)).
Proof.
  intros query_fuel self w line w0 response st t Hin Hq Hp fuel.
  unfold prompt_loop. simpl while_true.
  rewrite (chat_body_on_line _ _ _ Hin).
  apply String.eqb_neq in Hq. rewrite Hq.
  unfold query_served. rewrite Hp. reflexivity.
Qed.

Lemma chat_body_input_error :
  forall query_fuel self w e w0,
    input prompt w = (Raises e, w0) ->
    is_Exception e = true ->
    chat_body query_fuel self w
    = (Ok Continue, w0, [EvInput prompt; EvPrint (PyStr.nl ++ "Error: " ++ str_exn e)]).
Proof.
  intros query_fuel self w e w0 Hin He.
  unfold chat_body, try_except, chat_try.
  unfold bind at 1. unfold call at 1. simpl get_world. rewrite Hin, He. reflexivity.
Qed.

(** X13. When reading the line raises an [Exception], the end of input
    for one, the prompt loop prints the error and prompts again: it does not
    end, and no query is processed. *)
Theorem prompt_loop_survives_input_error :
  forall query_fuel self w e w0,
    input prompt w = (Raises e, w0) ->
    is_Exception e = true ->
    forall fuel,
      prompt_loop query_fuel (S fuel) self w
      = (let '(r, w2, t2) := prompt_loop query_fuel fuel self w0 in
         (r, w2, [EvInput prompt; EvPrint (PyStr.nl ++ "Error: " ++ str_exn e)] ++ t2)).
Proof.
  intros query_fuel self w e w0 Hin He fuel.
  unfold prompt_loop. simpl while_true.
  now rewrite (chat_body_input_error _ _ _ Hin He).
Qed.

(** X14. In a world where reading a line keeps raising the same
    [Exception], as the console does at end of input, the prompt loop never
    ends: after any number of rounds it is still running, having printed the
    error once per round and called nothing but [input]. *)
Theorem prompt_loop_spins_at_end_of_input :
  forall query_fuel self w e,
    input prompt w = (Raises e, w) ->
    is_Exception e = true ->
    forall fuel,
      prompt_loop query_fuel fuel self w
      = (OutOfFuel, w,
         List.concat (repeat [EvInput prompt; EvPrint (PyStr.nl ++ "Error: " ++ str_exn e)] fuel)).
Proof.
  intros query_fuel self w e Hin He. induction fuel as [|fuel IH].
  - reflexivity.
  - unfold prompt_loop in *. simpl while_true.
    rewrite (chat_body_input_error _ _ _ Hin He), IH. reflexivity.
Qed.

(** X15. An exception that is not an [Exception] ([KeyboardInterrupt],
    [CancelledError]) raised by [process_query] is not caught: the prompt
    loop ends with it, nothing is printed and no further line is read. *)
Theorem prompt_loop_lets_base_exceptions_through :
  forall query_fuel self w line w0 e st t,
    input prompt w = (Returns line, w0) ->
    PyStr.lower (PyStr.strip line) <> "quit" ->
    process_query query_fuel self (PyStr.strip line) w0 = (Raise e, st, t) ->
    is_Exception e = false ->
    forall fuel,
      prompt_loop query_fuel (S fuel) self w = (Raise e, world st, EvInput prompt :: t).
Proof.
  intros query_fuel self w line w0 e st t Hin Hq Hp He fuel.
  unfold prompt_loop. simpl while_true.
  rewrite (chat_body_on_line _ _ _ Hin).
  apply String.eqb_neq in Hq. rewrite Hq.
  unfold query_served. rewrite Hp, He. reflexivity.
Qed.

(** *** connect_to_server *)

(** X16. When the transport, the session, the handshake and the
    enumeration all succeed, [connect_to_server] makes these four calls in
    this order, assigns the transport and the session to the client, and
    prints the names of the tools in the order the server gave them. *)
Theorem connect_to_server_success :
  forall path s tr w1 sess w2 u w3 tools w4,
    supported_kind path = true ->
    stdio_client (server_params_for path) (world_of s) = (Returns tr, w1) ->
    ClientSession tr w1 = (Returns sess, w2) ->
    initialize sess w2 = (Returns u, w3) ->
    list_tools sess w3 = (Returns tools, w4) ->
    connect_to_server path s
    = (Ok tt,
       {| self_of := {| transport := Some tr; session := Some sess |}; world_of := w4 |},
       connect_calls path ++ [EvPrintConnected (map (@name Json) tools)]).
Proof.
  intros path s tr w1 sess w2 u w3 tools w4 Hk H1 H2 H3 H4.
  unfold connect_to_server. fold (supported_kind path). rewrite Hk.
  simpl negb. cbv iota. fold (server_params_for path).
  unfold bind, call, assign_self, modify. simpl.
  rewrite H1. simpl. rewrite H2. simpl. rewrite H3. simpl. rewrite H4. reflexivity.
Qed.

(** X17. For a supported identifier [connect_to_server] goes through
    transport, session, handshake and enumeration in this order and stops at
    the first call that raises, with the error of that call and without
    printing anything.  When the transport fails the client is unchanged;
    when the session cannot be entered only the transport was assigned; when
    the handshake or the enumeration fails the session is already
    assigned. *)
Theorem connect_to_server_stops_at_first_error :
  forall path s,
    supported_kind path = true ->
    (forall e w1,
        stdio_client (server_params_for path) (world_of s) = (Raises e, w1) ->
        connect_to_server path s
        = (Raise e,
           {| self_of := self_of s; world_of := w1 |},
           [EvStdioClient (server_params_for path)]))
    /\ (forall tr w1 e w2,
          stdio_client (server_params_for path) (world_of s) = (Returns tr, w1) ->
          ClientSession tr w1 = (Raises e, w2) ->
          connect_to_server path s
          = (Raise e,
             {| self_of := {| transport := Some tr; session := session (self_of s) |};
                world_of := w2 |},
             [EvStdioClient (server_params_for path); EvClientSession]))
    /\ (forall tr w1 sess w2 e w3,
          stdio_client (server_params_for path) (world_of s) = (Returns tr, w1) ->
          ClientSession tr w1 = (Returns sess, w2) ->
          initialize sess w2 = (Raises e, w3) ->
          connect_to_server path s
          = (Raise e,
             {| self_of := {| transport := Some tr; session := Some sess |};
                world_of := w3 |},
             [EvStdioClient (server_params_for path); EvClientSession; EvInitialize]))
    /\ (forall tr w1 sess w2 u w3 e w4,
          stdio_client (server_params_for path) (world_of s) = (Returns tr, w1) ->
          ClientSession tr w1 = (Returns sess, w2) ->
          initialize sess w2 = (Returns u, w3) ->
          list_tools sess w3 = (Raises e, w4) ->
          connect_to_server path s
          = (Raise e,
             {| self_of := {| transport := Some tr; session := Some sess |};
                world_of := w4 |},
             connect_calls path)).
Proof.
  intros path s Hk.
  unfold connect_to_server. fold (supported_kind path). rewrite Hk.
  simpl negb. cbv iota. fold (server_params_for path).
  unfold bind, call, assign_self, modify. simpl.
  repeat split.
  - intros e w1 H1. rewrite H1. destruct s. reflexivity.
  - intros tr w1 e w2 H1 H2. rewrite H1. simpl. rewrite H2. reflexivity.
  - intros tr w1 sess w2 e w3 H1 H2 H3.
    rewrite H1. simpl. rewrite H2. simpl. rewrite H3. reflexivity.
  - intros tr w1 sess w2 u w3 e w4 H1 H2 H3 H4.
    rewrite H1. simpl. rewrite H2. simpl. rewrite H3. simpl. rewrite H4. reflexivity.
Qed.

(** *** The check of the identifier *)

Lemma starts_with_app :
  forall p l, PyStr.starts_with p l = true <-> exists rest, l = p ++ rest.
Proof.
  induction p as [|a p IH]; intro l; simpl.
  - split; [now exists l | reflexivity].
  - destruct l as [|b l].
    + split; [discriminate | intros [rest H]; discriminate H].
    + rewrite andb_true_iff, Ascii.eqb_eq, IH. split.
      * intros [-> [rest ->]]. now exists rest.
      * intros [rest H]. inversion H; subst. split; [reflexivity | now exists rest].
Qed.

Lemma bytes_append :
  forall a b : string, PyStr.bytes (a ++ b) = PyStr.bytes a ++ PyStr.bytes b.
Proof.
  unfold PyStr.bytes. induction a as [|x a IH]; intro b; simpl; [reflexivity | now rewrite IH].
Qed.

Lemma endswith_append :
  forall s suffix,
    PyStr.endswith s suffix = true <-> exists stem, s = (stem ++ suffix)%string.
Proof.
  intros s suffix. unfold PyStr.endswith. rewrite starts_with_app. split.
  - intros [rest H].
    exists (PyStr.of_bytes (rev rest)).
    apply (f_equal (@rev ascii)) in H. rewrite rev_involutive, rev_app_distr, rev_involutive in H.
    rewrite <- (string_of_list_ascii_of_string s).
    rewrite <- (string_of_list_ascii_of_string (PyStr.of_bytes (rev rest) ++ suffix)).
    f_equal. fold (PyStr.bytes s). fold (PyStr.bytes (PyStr.of_bytes (rev rest) ++ suffix)).
    rewrite bytes_append, H. f_equal.
    unfold PyStr.bytes, PyStr.of_bytes. now rewrite list_ascii_of_string_of_list_ascii.
  - intros [stem ->]. exists (rev (PyStr.bytes stem)).
    now rewrite bytes_append, rev_app_distr.
Qed.

(** X18. The identifiers [connect_to_server] accepts are exactly the
    strings made of any stem, the empty one included, followed by [.py] or by
    [.js], in these letters: the comparison is case-sensitive. *)
Theorem supported_kind_is_a_suffix_test :
  forall path,
    supported_kind path = true
    <-> exists stem, path = (stem ++ ".py")%string \/ path = (stem ++ ".js")%string.
Proof.
  intro path. unfold supported_kind. rewrite orb_true_iff, !endswith_append. split.
  - intros [[stem H]|[stem H]]; exists stem; auto.
  - intros [stem [H|H]]; [left | right]; now exists stem.
Qed.

(** *** The text of a tool result *)

(** X19. The text of a tool result whose segments are those of one list
    followed by those of another is the text of the first followed by the
    text of the second: no segment is dropped, reordered or merged with its
    neighbour. *)
Theorem tool_result_text_app :
  forall a b : list (mcp_content NonText),
    tool_result_text (a ++ b) = (tool_result_text a ++ tool_result_text b)%string.
Proof.
  intros a b. unfold tool_result_text.
  rewrite fold_left_app, tool_result_text_from. f_equal.
  now rewrite tool_result_text_from.
Qed.

End SessionProofs.

(** * Properties of [main] *)

Section MainProofs.

Context {C : Collaborators} {L : Lifecycle}.

(** X20. Started without the path of a server script, [main] prints the
    usage line and exits with status 1: no client is built, nothing is
    connected and nothing is cleaned up. *)
Theorem main_without_argument :
  forall argv query_fuel fuel w,
    List.length argv < 2 ->
    main argv query_fuel fuel w = (SysExit 1, w, [Client (EvPrint usage)]).
Proof.
  intros argv query_fuel fuel w H. unfold main.
  apply Nat.ltb_lt in H. now rewrite H.
Qed.

(** X21. When building the model API client raises, [main] ends with
    that error before the [try] block is entered: no connection is attempted
    and [cleanup] is not called. *)
Theorem main_client_error :
  forall argv query_fuel fuel w e w1,
    2 <= List.length argv ->
    OpenAI w = (Raises e, w1) ->
    main argv query_fuel fuel w = (Uncaught e, w1, [EvOpenAI]).
Proof.
  intros argv query_fuel fuel w e w1 H Ho. unfold main, new_client.
  apply Nat.ltb_ge in H. now rewrite H, Ho.
Qed.

(** X22. Once the client is built, [main] calls [cleanup] exactly once,
    as the last thing it does, however the connection and the prompt loop
    ended: by a return or by any exception. *)
Theorem main_cleans_up_once :
  forall argv query_fuel fuel w u w1,
    2 <= List.length argv ->
    OpenAI w = (Returns u, w1) ->
    let '(status, _, t) := main argv query_fuel fuel w in
    status <> Unfinished ->
    exists t0 : trace, t = EvOpenAI :: map Client t0 ++ [EvAclose].
Proof.
  intros argv query_fuel fuel w u w1 H Ho. unfold main, new_client, cleanup.
  apply Nat.ltb_ge in H. rewrite H, Ho.
  destruct (main_try query_fuel fuel init_client (nth 1 argv EmptyString) w1)
    as [[[v|e|] w2] t1].
  - destruct (aclose w2) as [c w3]. intros _. now exists t1.
  - destruct (aclose w2) as [c w3]. intros _. now exists t1.
  - intro Hn. now contradiction Hn.
Qed.

(** X23. When [connect_to_server] raises, [main] does not start the
    prompt loop: it calls [cleanup] and ends with the error of the
    connection, having printed no banner and read no line. *)
Theorem main_connect_error :
  forall script path others query_fuel fuel w u w1 e s t1 u' w3,
    OpenAI w = (Returns u, w1) ->
    connect_to_server path {| self_of := init_client; world_of := w1 |} = (Raise e, s, t1) ->
    aclose (world_of s) = (Returns u', w3) ->
    main (script :: path :: others) query_fuel fuel w
    = (Uncaught e, w3, EvOpenAI :: map Client t1 ++ [EvAclose]).
Proof.
  intros script path others query_fuel fuel w u w1 e s t1 u' w3 Ho Hc Ha.
  unfold main, new_client, main_try, cleanup. simpl. rewrite Ho, Hc, Ha. reflexivity.
Qed.

(** X24. An exception raised by [cleanup] replaces whatever the [try]
    block ended with: [main] ends with the error of the cleanup, also when
    the connection or the prompt loop had raised another one. *)
Theorem main_cleanup_error_wins :
  forall argv query_fuel fuel w u w1 r w2 t1 e' w3,
    2 <= List.length argv ->
    OpenAI w = (Returns u, w1) ->
    main_try query_fuel fuel init_client (nth 1 argv EmptyString) w1 = (r, w2, t1) ->
    r <> OutOfFuel ->
    aclose w2 = (Raises e', w3) ->
    main argv query_fuel fuel w
    = (Uncaught e', w3, EvOpenAI :: map Client t1 ++ [EvAclose]).
Proof.
  intros argv query_fuel fuel w u w1 r w2 t1 e' w3 H Ho Ht Hr Ha.
  unfold main, new_client, cleanup.
  apply Nat.ltb_ge in H. rewrite H, Ho, Ht.
  destruct r as [v|e|]; [| |now contradiction Hr]; now rewrite Ha.
Qed.

(** X25. A whole session in which everything succeeds and the user quits
    at the first prompt: [main] builds the client, connects, prints the tool
    names and the two banner lines, prompts once, cleans up and returns. *)
Theorem main_quit_session :
  forall script path others query_fuel fuel w u w1 tr w2 sess w3 v w4 tools w5
         line w6 u' w7,
    supported_kind path = true ->
    OpenAI w = (Returns u, w1) ->
    stdio_client (server_params_for path) w1 = (Returns tr, w2) ->
    ClientSession tr w2 = (Returns sess, w3) ->
    initialize sess w3 = (Returns v, w4) ->
    list_tools sess w4 = (Returns tools, w5) ->
    input prompt w5 = (Returns line, w6) ->
    quit_any_case (PyStr.strip line) = true ->
    aclose w6 = (Returns u', w7) ->
    main (script :: path :: others) query_fuel (S fuel) w
    = (Returned, w7,
       EvOpenAI
       :: map Client (connect_calls path
                      ++ [EvPrintConnected (map (@name Json) tools);
                          EvPrint (PyStr.nl ++ "MCP Client Started!");
                          EvPrint "Type your queries or 'quit' to exit.";
                          EvInput prompt])
       ++ [EvAclose]).
Proof.
  intros script path others query_fuel fuel w u w1 tr w2 sess w3 v w4 tools w5
         line w6 u' w7 Hk Ho H1 H2 H3 H4 Hin Hq Ha.
  assert (connect_to_server path {| self_of := init_client; world_of := w1 |}
          = (Ok tt,
             {| self_of := {| transport := Some tr; session := Some sess |}; world_of := w5 |},
             connect_calls path ++ [EvPrintConnected (map (@name Json) tools)])) as Hc.
  { unfold connect_to_server. fold (supported_kind path). rewrite Hk.
    simpl negb. cbv iota. fold (server_params_for path).
    unfold bind, call, assign_self, modify. simpl.
    rewrite H1. simpl. rewrite H2. simpl. rewrite H3. simpl. rewrite H4. reflexivity. }
  assert (forall self,
             chat_loop query_fuel (S fuel) self w5
             = (Ok tt, w6,
                [EvPrint (PyStr.nl ++ "MCP Client Started!");
                 EvPrint "Type your queries or 'quit' to exit.";
                 EvInput prompt])) as Hl.
  { intro self. unfold chat_loop, prompt_loop, bind, print. simpl.
    rewrite (chat_body_on_line _ _ _ Hin), lower_quit_iff, Hq. reflexivity. }
  unfold main, new_client, main_try, cleanup. simpl.
  rewrite Ho, Hc. simpl self_of. simpl world_of. rewrite Hl, Ha.
  rewrite <- app_assoc. reflexivity.
Qed.

End MainProofs.

(** * Concrete runs on replayed replies *)

Section ReplayRuns.

Import Replay.

Ltac reach_head :=
  eexists tt, _, _;
  split; [reflexivity | split; [reflexivity | split; reflexivity]].

(** A query sent before any connection. *)
Lemma process_query_without_session_run :
  fst (fst (process_query 1 init_client "hi" [listed]))
  = Raise (AttributeError "'NoneType' object has no attribute 'list_tools'").
Proof.
  rewrite (@process_query_without_session collaborators 1 init_client "hi" [listed] eq_refl).
  reflexivity.
Defined.

(** A session that is closed when the tools are enumerated. *)
Lemma process_query_enumeration_error_run :
  process_query 1 connected "hi" []
  = (Raise (OtherException "Connection closed"),
     {| messages := [system_message; user_message "hi"]; final_text := []; world := [] |},
     [EvListTools]).
Proof.
  apply (@process_query_enumeration_error collaborators 1 connected tt "hi" []
           (OtherException "Connection closed") [] eq_refl eq_refl).
Defined.

(** A model API that fails on the first call. *)
Lemma process_query_model_error_run :
  fst (fst (process_query 1 connected "hi" [listed]))
  = Raise (OtherException "Connection closed").
Proof.
  erewrite (@process_query_model_error collaborators connected "hi" [listed] _ 0); cycle 1.
  - reach_head.
  - reflexivity.
  - lia.
  - reflexivity.
Defined.

(** A response without any output item. *)
Lemma process_query_index_error_run :
  fst (fst (process_query 1 connected "hi" [listed; OnCreate (Returns {| output := [] |})]))
  = Raise (IndexError "list index out of range").
Proof.
  erewrite (@process_query_index_error collaborators connected "hi" _ _ 0); cycle 1.
  - reach_head.
  - reflexivity.
  - left. reflexivity.
  - lia.
  - reflexivity.
Defined.

(** A model that refuses. *)
Lemma process_query_refusal_error_run :
  fst (fst (process_query 1 connected "hi"
              [listed;
               OnCreate (Returns {| output := [OutputMessage [OutputRefusal "no"]] |})]))
  = Raise (AttributeError "'ResponseOutputRefusal' object has no attribute 'text'").
Proof.
  erewrite (@process_query_refusal_error collaborators connected "hi" _ _ 0); cycle 1.
  - reach_head.
  - reflexivity.
  - lia.
  - reflexivity.
Defined.

(** A tool that fails: the request stays unanswered in the messages. *)
Lemma process_query_tool_error_run :
  fst (process_query 1 connected "1+2"
         [listed; asks "call_1" "{}"; OnCallTool (Raises (OtherException "division by zero"))])
  = (Raise (OtherException "division by zero"),
     {| messages := [system_message; user_message "1+2";
                     assistant_message "call_1" "add" "{}"];
        final_text := [];
        world := [] |}).
Proof.
  erewrite (@process_query_tool_error collaborators connected tt "1+2" _ _ 0); cycle 1.
  - reach_head.
  - reflexivity.
  - reflexivity.
  - reflexivity.
  - reflexivity.
  - lia.
  - reflexivity.
Defined.

(** A tool round that succeeds, seen from the next head of the loop. *)
Lemma tool_round_reaches_next_head_run :
  exists st t,
    loop_head connected "1+2" [listed; asks "call_1" "{}"; tool_says "3"]
              (functions_of [add]) 1 st t
    /\ messages st = [system_message; user_message "1+2";
                      assistant_message "call_1" "add" "{}";
                      tool_output_message "call_1" "3"]
    /\ count_tool_calls t = 1.
Proof.
  eexists _, _. split.
  - eapply (@tool_round_reaches_next_head collaborators connected tt "1+2" _ _ 0).
    + reach_head.
    + reflexivity.
    + reflexivity.
    + reflexivity.
    + reflexivity.
  - split; reflexivity.
Defined.

(** The conversation after one round of the sum. *)
Lemma loop_head_conversation_run :
  exists st t exchanges,
    loop_head connected "1+2" [listed; asks "call_1" "{}"; tool_says "3"]
              (functions_of [add]) 1 st t
    /\ List.length exchanges = 1
    /\ messages st
       = [system_message; user_message "1+2"] ++ flat_map exchange_messages exchanges.
Proof.
  assert (exists st t,
             loop_head connected "1+2" [listed; asks "call_1" "{}"; tool_says "3"]
                       (functions_of [add]) 1 st t) as (st & t & Hh).
  { eexists _, _. reach_head. }
  destruct (loop_head_conversation Hh) as (exchanges & Hlen & Hms & _).
  exists st, t, exchanges. auto.
Defined.

(** After the round of the sum the model is called a second time. *)
Lemma process_query_calls_model_again_run :
  exists r st' t st t',
    List.length (messages st) = 4
    /\ process_query 2 connected "1+2" [listed; asks "call_1" "{}"; tool_says "3"]
       = (r, st', EvListTools :: t ++ model_call (functions_of [add]) st :: t').
Proof.
  assert (exists st t,
             loop_head connected "1+2" [listed; asks "call_1" "{}"; tool_says "3"]
                       (functions_of [add]) 1 st t
             /\ List.length (messages st) = 4) as (st & t & Hh & Hlen).
  { eexists _, _. split; [reach_head | reflexivity]. }
  destruct (@process_query_calls_model_again collaborators _ _ _ _ _ _ _ 2 Hh)
    as (r & st' & t' & Hp); [lia|].
  exists r, st', t, st, t'. auto.
Defined.

(** The model call of the sum is a standard one. *)
Lemma process_query_standard_calls_run :
  standard_call
    (EvCreate "gpt-4" [system_message; user_message "1+2"] (functions_of [add]) "auto").
Proof.
  apply (@process_query_standard_calls collaborators 1 connected "1+2" [listed; answers "3"]).
  simpl. right. left. reflexivity.
Defined.

(** An answered query, then [quit]. *)
Lemma prompt_loop_prints_answer_run :
  prompt_loop 1 2 connected
              [OnInput (Returns "hi"); listed; answers "hello"; OnInput (Returns "quit")]
  = (Ok tt, [],
     [EvInput prompt; EvListTools;
      EvCreate "gpt-4" [system_message; user_message "hi"] (functions_of [add]) "auto";
      EvPrint (PyStr.nl ++ "hello"); EvInput prompt]).
Proof.
  erewrite (@prompt_loop_prints_answer collaborators 1 connected _ "hi"); cycle 1.
  - reflexivity.
  - discriminate.
  - reflexivity.
  - reflexivity.
Defined.

(** A read that fails once, then [quit]. *)
Lemma prompt_loop_survives_input_error_run :
  prompt_loop 1 2 connected
              [OnInput (Raises (OtherException "Input/output error")); OnInput (Returns "quit")]
  = (Ok tt, [],
     [EvInput prompt; EvPrint (PyStr.nl ++ "Error: Input/output error"); EvInput prompt]).
Proof.
  erewrite (@prompt_loop_survives_input_error collaborators 1 connected); cycle 1.
  - reflexivity.
  - reflexivity.
  - reflexivity.
Defined.

(** The console at end of input: three rounds, three errors, no end. *)
Lemma prompt_loop_spins_at_end_of_input_run :
  prompt_loop 1 3 connected []
  = (OutOfFuel, [],
     List.concat
       (repeat [EvInput prompt; EvPrint (PyStr.nl ++ "Error: EOF when reading a line")] 3)).
Proof.
  apply (@prompt_loop_spins_at_end_of_input collaborators 1 connected []
           (EOFError "EOF when reading a line") eq_refl eq_refl 3).
Defined.

(** An interrupt while the tools are enumerated. *)
Lemma prompt_loop_lets_base_exceptions_through_run :
  prompt_loop 1 2 connected
              [OnInput (Returns "hi"); OnListTools (Raises KeyboardInterrupt);
               OnInput (Returns "quit")]
  = (Raise KeyboardInterrupt, [OnInput (Returns "quit")], [EvInput prompt; EvListTools]).
Proof.
  erewrite (@prompt_loop_lets_base_exceptions_through collaborators 1 connected _ "hi");
    cycle 1.
  - reflexivity.
  - discriminate.
  - reflexivity.
  - reflexivity.
  - reflexivity.
Defined.

(** A connection that succeeds. *)
Lemma connect_to_server_success_run :
  connect_to_server "server.js" (fresh handshake)
  = (Ok tt, @Build_connecting collaborators connected [],
     connect_calls "server.js" ++ [EvPrintConnected ["add"]]).
Proof.
  apply (@connect_to_server_success collaborators "server.js" (fresh handshake)
           tt _ tt _ tt _ [add] [] eq_refl eq_refl eq_refl eq_refl eq_refl).
Defined.

(** A handshake that fails: three calls were made, the session is
    assigned, nothing is printed. *)
Lemma connect_to_server_stops_at_first_error_run :
  connect_to_server "server.py"
                    (fresh [OnStdioClient ok; OnClientSession ok;
                            OnInitialize (Raises (OtherException "Connection closed"))])
  = (Raise (OtherException "Connection closed"),
     @Build_connecting collaborators connected [],
     [EvStdioClient (server_params_for "server.py"); EvClientSession; EvInitialize]).
Proof.
  destruct (@connect_to_server_stops_at_first_error collaborators "server.py"
              (fresh [OnStdioClient ok; OnClientSession ok;
                      OnInitialize (Raises (OtherException "Connection closed"))])
              eq_refl) as (_ & _ & H & _).
  apply (H tt _ tt _ (OtherException "Connection closed") [] eq_refl eq_refl eq_refl).
Defined.

(** A plain message that does not give its text back: when its first
    content part is a refusal no answer is returned at all, and when it has
    two text parts the answer is the first one only. *)
Lemma plain_message_text_not_returned :
  fst (fst (process_query 1 connected "capital?"
              [listed;
               OnCreate (Returns {| output :=
                 [OutputMessage [OutputRefusal "I cannot help with that."]] |})]))
  = Raise (AttributeError "'ResponseOutputRefusal' object has no attribute 'text'")
  /\ fst (fst (process_query 1 connected "capital?"
                 [listed;
                  OnCreate (Returns {| output :=
                    [OutputMessage [OutputText "Paris is ";
                                    OutputText "the capital of France."]] |})]))
     = Ok "Paris is ".
Proof. split; reflexivity. Qed.

(** [main] started with the name of the client only. *)
Lemma main_without_argument_run :
  main ["client.py"] 1 1 [OnOpenAI ok]
  = (SysExit 1, [OnOpenAI ok], [Client (EvPrint usage)]).
Proof.
  apply (@main_without_argument collaborators lifecycle ["client.py"] 1 1 [OnOpenAI ok]).
  simpl. lia.
Defined.

(** No credential in the environment. *)
Lemma main_client_error_run :
  main ["client.py"; "server.py"] 1 1
       [OnOpenAI (Raises (OtherException "The api_key client option must be set"))]
  = (Uncaught (OtherException "The api_key client option must be set"), [], [EvOpenAI]).
Proof.
  apply (@main_client_error collaborators lifecycle ["client.py"; "server.py"] 1 1).
  - simpl. lia.
  - reflexivity.
Defined.

(** A server script of an unsupported kind: [cleanup] is the last call. *)
Lemma main_cleans_up_once_run :
  exists t0 : trace,
    snd (main ["client.py"; "server.rb"] 1 1 [OnOpenAI ok; OnAclose ok])
    = EvOpenAI :: map Client t0 ++ [EvAclose].
Proof.
  pose proof (@main_cleans_up_once collaborators lifecycle
                ["client.py"; "server.rb"] 1 1 [OnOpenAI ok; OnAclose ok] tt [OnAclose ok]
                ltac:(simpl; lia) eq_refl) as H.
  simpl in H. apply H. discriminate.
Defined.

(** A server script of an unsupported kind: no prompt, the error comes out. *)
Lemma main_connect_error_run :
  main ["client.py"; "server.rb"] 1 1 [OnOpenAI ok; OnAclose ok]
  = (Uncaught (ValueError "Server script must be a .py or .js file"), [],
     [EvOpenAI; EvAclose]).
Proof.
  apply (@main_connect_error collaborators lifecycle "client.py" "server.rb" [] 1 1
           [OnOpenAI ok; OnAclose ok] tt [OnAclose ok]
           (ValueError "Server script must be a .py or .js file")
           (fresh [OnAclose ok]) [] tt []);
    reflexivity.
Defined.

(** A cleanup that fails after a connection that failed. *)
Lemma main_cleanup_error_wins_run :
  fst (fst (main ["client.py"; "server.rb"] 1 1
                 [OnOpenAI ok; OnAclose (Raises (OtherException "Attempted to exit cancel scope"))]))
  = Uncaught (OtherException "Attempted to exit cancel scope").
Proof.
  erewrite (@main_cleanup_error_wins collaborators lifecycle
              ["client.py"; "server.rb"] 1 1); cycle 1.
  - simpl. lia.
  - reflexivity.
  - reflexivity.
  - discriminate.
  - reflexivity.
  - reflexivity.
Defined.

(** A session that connects and is quit at once, with spaces around. *)
Lemma main_quit_session_run :
  fst (fst (main ["client.py"; "server.py"] 1 1
                 ([OnOpenAI ok] ++ handshake ++ [OnInput (Returns " Quit "); OnAclose ok])))
  = Returned.
Proof.
  erewrite (@main_quit_session collaborators lifecycle "client.py" "server.py" [] 1 0);
    cycle 1.
  - reflexivity.
  - reflexivity.
  - reflexivity.
  - reflexivity.
  - reflexivity.
  - reflexivity.
  - reflexivity.
  - reflexivity.
  - reflexivity.
  - reflexivity.
Defined.

End ReplayRuns.
